(** * mcp-server-bigquery: the tool handlers of [server.py] and their
      serialisation, as a shallow embedding.

    The Python of [src/mcp_server_bigquery/server.py] is modelled by
    - [str]: a Python string as the list of its Unicode code points;
    - [pyval]: the Python values that travel from the BigQuery client to
      [json.dumps];
    - [outcome]: a call either returns or raises;
    - [M]: a state-and-exception monad over the module globals ([_db],
      [os.environ]) and the log of calls made on the BigQuery client
      library;
    - [json.dumps] / [json.loads]: CPython's [json] encoder with [indent=2]
      and its decoder, for ints, strings, booleans, [None], lists and
      dicts.  Python floats are not part of the model.

    Logging calls ([logger.debug] ...) have no influence on any result and
    are left out. *)

From Stdlib Require Import ZArith NArith List String Ascii Bool Lia.
From Stdlib Require Import Decimal DecimalFacts DecimalPos DecimalN DecimalZ.
Import ListNotations.

Set Implicit Arguments.
Set Warnings "-register-all".

(* ================================================================== *)
(** * Python strings *)
(* ================================================================== *)

(** A Python [str] is a sequence of code points (0 .. 0x10FFFF). *)
Definition str := list N.

Definition ord (a : ascii) : N := N_of_ascii a.

(** A string literal of the source. *)
Definition lit (s : string) : str := map ord (list_ascii_of_string s).

(** [s.split(sep)] for a one-character separator: the pieces between
    the occurrences of [sep]; there is always at least one piece. *)
Fixpoint split (s : str) (sep : N) : list str :=
  match s with
  | [] => [[]]
  | c :: s' =>
      if (c =? sep)%N then [] :: split s' sep
      else match split s' sep with
           | p :: ps => (c :: p) :: ps
           | [] => [[c]]
           end
  end.

(** [s.count(sep)] for a one-character [sep]. *)
Fixpoint count (s : str) (sep : N) : nat :=
  match s with
  | [] => 0
  | c :: s' => (if (c =? sep)%N then 1 else 0) + count s' sep
  end.

(** [sep.join(parts)] *)
Fixpoint join (sep : str) (parts : list str) : str :=
  match parts with
  | [] => []
  | [p] => p
  | p :: ps => p ++ sep ++ join sep ps
  end.

(** [s.startswith(prefix)] *)
Fixpoint startswith (s prefix : str) : bool :=
  match prefix, s with
  | [], _ => true
  | p :: prefix', c :: s' => (c =? p)%N && startswith s' prefix'
  | _ :: _, [] => false
  end.

Definition str_eqb (a b : str) : bool :=
  if list_eq_dec N.eq_dec a b then true else false.

Definition c_dot : N := 46.
Definition c_quote : N := 34.
Definition c_backslash : N := 92.
Definition c_newline : N := 10.
Definition c_comma : N := 44.
Definition c_colon : N := 58.
Definition c_lbracket : N := 91.
Definition c_rbracket : N := 93.
Definition c_lbrace : N := 123.
Definition c_rbrace : N := 125.
Definition c_minus : N := 45.
Definition c_space : N := 32.

(* ================================================================== *)
(** * Exceptions and outcomes *)
(* ================================================================== *)

(** The class of a raised exception.  [BaseExceptionOnly] stands for the
    classes that derive from [BaseException] but not from [Exception]
    ([KeyboardInterrupt], [SystemExit], ...): an [except Exception]
    clause lets them through. *)
Inductive exc_class :=
| ValueError
| RuntimeError
| TypeError
| OtherException (name : str)
| BaseExceptionOnly (name : str).

(** An exception object: its class and [str(e)]. *)
Record exn := mk_exn { exn_class : exc_class; exn_str : str }.

Definition isinstance_Exception (e : exn) : bool :=
  match exn_class e with
  | BaseExceptionOnly _ => false
  | _ => true
  end.

Inductive outcome (A : Type) :=
| Return (a : A)
| Raise (e : exn).
Arguments Raise {A} e.

(* ================================================================== *)
(** * Python values handed to [json.dumps] *)
(* ================================================================== *)

(** [PObject t] is any object whose class [t] the JSON encoder does not
    know ([datetime], [Decimal], [bytes], ...).  A dict is kept as the
    list of its items in insertion order; its keys are strings (column
    names). *)
Inductive pyval :=
| PNone
| PBool (b : bool)
| PInt (z : Z)
| PStr (s : str)
| PList (items : list pyval)
| PDict (items : list (str * pyval))
| PObject (type_name : str).

(** [d[k] = v] on the item list of a dict: an existing key keeps its
    position and takes the new value, a new key goes last. *)
Fixpoint dict_set (d : list (str * pyval)) (k : str) (v : pyval)
  : list (str * pyval) :=
  match d with
  | [] => [(k, v)]
  | (k', v') :: d' =>
      if str_eqb k' k then (k', v) :: d' else (k', v') :: dict_set d' k v
  end.

(** [dict(pairs)] *)
Definition dict (pairs : list (str * pyval)) : list (str * pyval) :=
  fold_left (fun d kv => dict_set d (fst kv) (snd kv)) pairs [].

(* ================================================================== *)
(** * [json.dumps(o, indent=2)] *)
(* ================================================================== *)

Module json.

(** ** Strings: [py_encode_basestring_ascii] *)

(** One lower-case hexadecimal digit. *)
Definition hexdigit (d : N) : N :=
  (if d <? 10 then 48 + d else 87 + d)%N.

(** ['\\u{0:04x}'.format(n)] *)
Definition format_u04x (n : N) : str :=
  [c_backslash; 117;
   hexdigit (n / 4096); hexdigit ((n / 256) mod 16);
   hexdigit ((n / 16) mod 16); hexdigit (n mod 16)]%N.

(** The replacement of one character matched by [ESCAPE_ASCII], that is
    of a backslash, a double quote, or anything outside [' '..'~']. *)
Definition replace (n : N) : str :=
  (if n =? c_backslash then [c_backslash; c_backslash]
   else if n =? c_quote then [c_backslash; c_quote]
   else if n =? 8 then [c_backslash; 98]       (* \b *)
   else if n =? 12 then [c_backslash; 102]     (* \f *)
   else if n =? 10 then [c_backslash; 110]     (* \n *)
   else if n =? 13 then [c_backslash; 114]     (* \r *)
   else if n =? 9 then [c_backslash; 116]      (* \t *)
   else if n <? 65536 then format_u04x n
   else
     let n := n - 65536 in
     let s1 := N.lor 55296 (N.land (N.shiftr n 10) 1023) in
     let s2 := N.lor 56320 (N.land n 1023) in
     format_u04x s1 ++ format_u04x s2)%N.

(** The characters matched by [ESCAPE_ASCII]: the backslash, the double
    quote, and everything outside the range from space to tilde. *)
Definition needs_escape (n : N) : bool :=
  ((n =? c_backslash) || (n =? c_quote) || (n <? 32) || (126 <? n))%N.

Definition escape_char (n : N) : str :=
  if needs_escape n then replace n else [n].

Definition encode_basestring_ascii (s : str) : str :=
  c_quote :: flat_map escape_char s ++ [c_quote].

(** ** Integers: [int.__repr__] *)

Definition digit_char (d : N) : N := (48 + d)%N.

Fixpoint uint_chars (u : uint) : str :=
  match u with
  | Nil => []
  | D0 u => digit_char 0 :: uint_chars u
  | D1 u => digit_char 1 :: uint_chars u
  | D2 u => digit_char 2 :: uint_chars u
  | D3 u => digit_char 3 :: uint_chars u
  | D4 u => digit_char 4 :: uint_chars u
  | D5 u => digit_char 5 :: uint_chars u
  | D6 u => digit_char 6 :: uint_chars u
  | D7 u => digit_char 7 :: uint_chars u
  | D8 u => digit_char 8 :: uint_chars u
  | D9 u => digit_char 9 :: uint_chars u
  end.

Definition int_repr (z : Z) : str :=
  match Z.to_int z with
  | Pos u => uint_chars u
  | Neg u => c_minus :: uint_chars u
  end.

(** ** The encoder *)

(** ['\n' + ' ' * 2 * level] *)
Definition newline_indent (level : nat) : str :=
  c_newline :: repeat c_space (2 * level).

Definition not_serializable (type_name : str) : exn :=
  mk_exn TypeError
    (lit "Object of type " ++ type_name ++ lit " is not JSON serializable").

(** The loop of [_iterencode_list] and [_iterencode_dict] over the items:
    every item but the first is preceded by the separator. *)
Section Items.
Variable A : Type.
Variable encode_item : A -> outcome str.
Variable separator : str.

Fixpoint encode_items (first : bool) (l : list A) : outcome str :=
  match l with
  | [] => Return []
  | x :: l' =>
      match encode_item x with
      | Raise e => Raise e
      | Return cx =>
          match encode_items false l' with
          | Raise e => Raise e
          | Return cr =>
              Return ((if first then [] else separator) ++ cx ++ cr)
          end
      end
  end.
End Items.

(** [_iterencode(o, _current_indent_level)] with the chunks joined: the
    text of [o], or the [TypeError] of the first object met that the
    encoder does not know. *)
Fixpoint iterencode (o : pyval) (level : nat) : outcome str :=
  match o with
  | PNone => Return (lit "null")
  | PBool true => Return (lit "true")
  | PBool false => Return (lit "false")
  | PInt z => Return (int_repr z)
  | PStr s => Return (encode_basestring_ascii s)
  | PList [] => Return (lit "[]")
  | PList lst =>
      let newline := newline_indent (S level) in
      match encode_items (fun value => iterencode value (S level))
                         (c_comma :: newline) true lst with
      | Raise e => Raise e
      | Return chunks =>
          Return ([c_lbracket] ++ newline ++ chunks
                    ++ newline_indent level ++ [c_rbracket])
      end
  | PDict [] => Return (lit "{}")
  | PDict dct =>
      let newline := newline_indent (S level) in
      match encode_items
              (fun item =>
                 match iterencode (snd item) (S level) with
                 | Raise e => Raise e
                 | Return chunks =>
                     Return (encode_basestring_ascii (fst item)
                               ++ [c_colon; c_space] ++ chunks)
                 end)
              (c_comma :: newline) true dct with
      | Raise e => Raise e
      | Return chunks =>
          Return ([c_lbrace] ++ newline ++ chunks
                    ++ newline_indent level ++ [c_rbrace])
      end
  | PObject t => Raise (not_serializable t)
  end.

(** [json.dumps(obj, indent=2)] *)
Definition dumps (obj : pyval) : outcome str := iterencode obj 0.

(* ================================================================== *)
(** * [json.loads] *)
(* ================================================================== *)

(** The decoder of CPython's [json] package ([json.decoder],
    [json.scanner]).  [None] stands for a [JSONDecodeError]; it is also
    the answer for a number with a fraction or an exponent and for the
    [NaN] and [Infinity] literals, which decode to floats. *)

(** [WHITESPACE_STR], the characters space, tab, newline and return *)
Definition is_ws (c : N) : bool :=
  ((c =? 32) || (c =? 9) || (c =? 10) || (c =? 13))%N.

Fixpoint skip_ws (s : str) : str :=
  match s with
  | c :: s' => if is_ws c then skip_ws s' else s
  | [] => []
  end.

Definition unhex (c : N) : option N :=
  (if (48 <=? c) && (c <=? 57) then Some (c - 48)
   else if (97 <=? c) && (c <=? 102) then Some (c - 87)
   else if (65 <=? c) && (c <=? 70) then Some (c - 55)
   else None)%N.

(** [_decode_uXXXX]: four hexadecimal digits *)
Definition decode_uXXXX (h1 h2 h3 h4 : N) : option N :=
  match unhex h1, unhex h2, unhex h3, unhex h4 with
  | Some a, Some b, Some c, Some d =>
      Some (((a * 16 + b) * 16 + c) * 16 + d)%N
  | _, _, _, _ => None
  end.

(** The [BACKSLASH] table of one-letter escapes *)
Definition backslash (esc : N) : option N :=
  (if esc =? c_quote then Some c_quote
   else if esc =? c_backslash then Some c_backslash
   else if esc =? 47 then Some 47
   else if esc =? 98 then Some 8
   else if esc =? 102 then Some 12
   else if esc =? 110 then Some 10
   else if esc =? 114 then Some 13
   else if esc =? 116 then Some 9
   else None)%N.

Definition cons_char (c : N) (r : option (str * str)) : option (str * str) :=
  match r with
  | Some (chars, rest) => Some (c :: chars, rest)
  | None => None
  end.

(** [py_scanstring(s, end, strict=True)], started after the opening
    quote: the decoded string and what follows the closing quote. *)
Fixpoint scanstring (s : str) : option (str * str) :=
  match s with
  | [] => None
  | c :: s1 =>
      if (c =? c_quote)%N then Some ([], s1)
      else if (c =? c_backslash)%N then
        match s1 with
        | [] => None
        | esc :: s2 =>
            if (esc =? 117)%N then
              match s2 with
              | h1 :: h2 :: h3 :: h4 :: s3 =>
                  match decode_uXXXX h1 h2 h3 h4 with
                  | None => None
                  | Some uni =>
                      let single := cons_char uni (scanstring s3) in
                      if ((55296 <=? uni) && (uni <=? 56319))%N then
                        match s3 with
                        | b :: u :: g1 :: g2 :: g3 :: g4 :: s4 =>
                            if ((b =? c_backslash) && (u =? 117))%N then
                              match decode_uXXXX g1 g2 g3 g4 with
                              | None => None
                              | Some uni2 =>
                                  if ((56320 <=? uni2) && (uni2 <=? 57343))%N
                                  then
                                    cons_char
                                      (65536 + N.lor (N.shiftl (uni - 55296) 10)
                                                     (uni2 - 56320))%N
                                      (scanstring s4)
                                  else single
                              end
                            else single
                        | _ => single
                        end
                      else single
                  end
              | _ => None
              end
            else
              match backslash esc with
              | Some char => cons_char char (scanstring s2)
              | None => None
              end
        end
      else if (c <? 32)%N then None
      else cons_char c (scanstring s1)
  end.

Definition is_digit (c : N) : bool := ((48 <=? c) && (c <=? 57))%N.

Definition cons_digit (c : N) (u : uint) : uint :=
  (if c =? 48 then D0 u else if c =? 49 then D1 u
   else if c =? 50 then D2 u else if c =? 51 then D3 u
   else if c =? 52 then D4 u else if c =? 53 then D5 u
   else if c =? 54 then D6 u else if c =? 55 then D7 u
   else if c =? 56 then D8 u else D9 u)%N.

(** The longest run of decimal digits at the head of [s] *)
Fixpoint digits (s : str) : uint * str :=
  match s with
  | c :: s' =>
      if is_digit c then let (u, r) := digits s' in (cons_digit c u, r)
      else (Nil, s)
  | [] => (Nil, [])
  end.

(** The integer group of [NUMBER_RE]: an optional minus sign, then a
    lone zero or a digit run that starts with a non-zero digit. *)
Definition match_integer (s : str) : option (Decimal.int * str) :=
  let (neg, s1) :=
    match s with
    | c :: s' => if (c =? c_minus)%N then (true, s') else (false, s)
    | [] => (false, s)
    end in
  let sign := fun u => if neg then Neg u else Pos u in
  match s1 with
  | c :: s2 =>
      if (c =? 48)%N then Some (sign (D0 Nil), s2)
      else if is_digit c then let (u, r) := digits s1 in Some (sign u, r)
      else None
  | [] => None
  end.

(** The fraction group: a dot and at least one digit *)
Definition has_frac (s : str) : bool :=
  match s with
  | c :: d :: _ => (c =? c_dot)%N && is_digit d
  | _ => false
  end.

(** The exponent group: e or E, an optional sign, at least one digit *)
Definition has_exp (s : str) : bool :=
  match s with
  | e :: s1 =>
      ((e =? 101) || (e =? 69))%N &&
      match s1 with
      | c :: s2 =>
          if ((c =? 43) || (c =? c_minus))%N
          then match s2 with d :: _ => is_digit d | [] => false end
          else is_digit c
      | [] => false
      end
  | [] => false
  end.

Definition match_number (s : str) : option (pyval * str) :=
  match match_integer s with
  | Some (integer, rest) =>
      if has_frac rest || has_exp rest then None
      else Some (PInt (Z.of_int integer), rest)
  | None => None
  end.

(** [s[idx:idx+len(word)] == word], giving what follows the word *)
Fixpoint strip_prefix (word s : str) : option str :=
  match word, s with
  | [], _ => Some s
  | w :: word', c :: s' => if (c =? w)%N then strip_prefix word' s' else None
  | _ :: _, [] => None
  end.

(** [scan_once], [JSONArray] and [JSONObject].  The two loops are entered
    at the first item, for an object after the opening quote of its
    first key.  [fuel] bounds the nesting of the calls. *)
Fixpoint scan_once (fuel : nat) (s : str) {struct fuel}
  : option (pyval * str) :=
  match fuel with
  | O => None
  | S fuel =>
      match s with
      | [] => None
      | c :: s1 =>
          if (c =? c_quote)%N then
            match scanstring s1 with
            | Some (chars, rest) => Some (PStr chars, rest)
            | None => None
            end
          else if (c =? c_lbrace)%N then
            match skip_ws s1 with
            | c' :: s2 =>
                if (c' =? c_rbrace)%N then Some (PDict [], s2)
                else if (c' =? c_quote)%N then
                  match JSONObject_loop fuel s2 with
                  | Some (pairs, rest) => Some (PDict (dict pairs), rest)
                  | None => None
                  end
                else None
            | [] => None
            end
          else if (c =? c_lbracket)%N then
            match skip_ws s1 with
            | c' :: s2 =>
                if (c' =? c_rbracket)%N then Some (PList [], s2)
                else
                  match JSONArray_loop fuel (c' :: s2) with
                  | Some (values, rest) => Some (PList values, rest)
                  | None => None
                  end
            | [] => None
            end
          else
            match strip_prefix (lit "null") s,
                  strip_prefix (lit "true") s,
                  strip_prefix (lit "false") s with
            | Some rest, _, _ => Some (PNone, rest)
            | _, Some rest, _ => Some (PBool true, rest)
            | _, _, Some rest => Some (PBool false, rest)
            | None, None, None => match_number s
            end
      end
  end

with JSONArray_loop (fuel : nat) (s : str) {struct fuel}
  : option (list pyval * str) :=
  match fuel with
  | O => None
  | S fuel =>
      match scan_once fuel s with
      | None => None
      | Some (value, s1) =>
          match skip_ws s1 with
          | c :: s2 =>
              if (c =? c_rbracket)%N then Some ([value], s2)
              else if (c =? c_comma)%N then
                match JSONArray_loop fuel (skip_ws s2) with
                | Some (values, rest) => Some (value :: values, rest)
                | None => None
                end
              else None
          | [] => None
          end
      end
  end

with JSONObject_loop (fuel : nat) (s : str) {struct fuel}
  : option (list (str * pyval) * str) :=
  match fuel with
  | O => None
  | S fuel =>
      match scanstring s with
      | None => None
      | Some (key, s1) =>
          match skip_ws s1 with
          | c :: s2 =>
              if (c =? c_colon)%N then
                match scan_once fuel (skip_ws s2) with
                | None => None
                | Some (value, s3) =>
                    match skip_ws s3 with
                    | c' :: s4 =>
                        if (c' =? c_rbrace)%N then Some ([(key, value)], s4)
                        else if (c' =? c_comma)%N then
                          match skip_ws s4 with
                          | q :: s5 =>
                              if (q =? c_quote)%N then
                                match JSONObject_loop fuel s5 with
                                | Some (pairs, rest) =>
                                    Some ((key, value) :: pairs, rest)
                                | None => None
                                end
                              else None
                          | [] => None
                          end
                        else None
                    | [] => None
                    end
                end
              else None
          | [] => None
          end
      end
  end.

(** [json.loads(s)]: one value between optional white space, and nothing
    after it.  A text that starts with a byte order mark is refused. *)
Definition loads (s : str) : option pyval :=
  if startswith s [65279%N] then None
  else
    match scan_once (S (List.length s)) (skip_ws s) with
    | Some (obj, rest) =>
        match skip_ws rest with
        | [] => Some obj
        | _ :: _ => None
        end
    | None => None
    end.

End json.

(* ================================================================== *)
(** * The BigQuery client library, seen from [server.py] *)
(* ================================================================== *)

(** [service_account.Credentials] *)
Record Credentials := mk_Credentials {
  service_account_file : str;
  scopes : list str
}.

(** [bigquery.Client(credentials=..., project=..., location=...)] *)
Record Client := mk_Client {
  credentials : option Credentials;
  project : str;
  location : str
}.

(** [bigquery.ScalarQueryParameter(name, type_, value)] *)
Record ScalarQueryParameter := mk_ScalarQueryParameter {
  name : str;
  type_ : str;
  value : str
}.

(** A row of a result set, [row.items()]. *)
Definition Row := list (str * pyval).

(** [QueryJob]: what [job.result()] does once the rows are iterated. *)
Record QueryJob := mk_QueryJob { result : outcome (list Row) }.

(** The calls that [server.py] makes on the client library, in the order
    they are made. *)
Inductive Call :=
| Credentials_from_service_account_file (filename : str) (scopes : list str)
| Client_init (credentials : option Credentials) (project location : str)
| Client_query (self : Client) (query : str)
               (query_parameters : option (list ScalarQueryParameter))
| Client_list_datasets (self : Client)
| Client_list_tables (self : Client) (dataset_id : str).

(** The library and the service behind it: what each call answers, given
    the calls made before it. *)
Record Backend := mk_Backend {
  on_from_service_account_file :
    list Call -> str -> list str -> outcome Credentials;
  on_Client_init :
    list Call -> option Credentials -> str -> str -> outcome unit;
  on_query :
    list Call -> Client -> str -> option (list ScalarQueryParameter) ->
    outcome QueryJob;
  on_list_datasets : list Call -> Client -> outcome (list str);
  on_list_tables : list Call -> Client -> str -> outcome (list str)
}.

(* ================================================================== *)
(** * Program state and the monad of the handlers *)
(* ================================================================== *)

(** [BigQueryDatabase]: the attributes set by [__init__]. *)
Record BigQueryDatabase_t := mk_BigQueryDatabase {
  client : Client;
  datasets_filter : list str
}.

(** The module global [_db], [os.environ], the client library, and the
    log of the calls made on it. *)
Record State := mk_State {
  _db : option BigQueryDatabase_t;
  environ : list (str * str);
  bigquery : Backend;
  calls : list Call
}.

Definition M (A : Type) : Type := State -> outcome A * State.

Definition ret {A} (a : A) : M A := fun st => (Return a, st).

Definition raise {A} (e : exn) : M A := fun st => (Raise e, st).

Definition bind {A B} (m : M A) (k : A -> M B) : M B :=
  fun st =>
    match m st with
    | (Return a, st') => k a st'
    | (Raise e, st') => (Raise e, st')
    end.

Notation "x <- m ;; k" := (bind m (fun x => k))
  (at level 61, m at next level, right associativity).

(** [try: body except Exception as e: handler(e)] *)
Definition try_except_Exception {A} (body : M A) (handler : exn -> M A)
  : M A :=
  fun st =>
    match body st with
    | (Return a, st') => (Return a, st')
    | (Raise e, st') =>
        if isinstance_Exception e then handler e st' else (Raise e, st')
    end.

(** A pure computation that may raise. *)
Definition lift {A} (o : outcome A) : M A := fun st => (o, st).

(** One call on the client library: it is logged, and answered from the
    calls made so far. *)
Definition call {A} (c : Call) (answer : Backend -> list Call -> outcome A)
  : M A :=
  fun st =>
    (answer (bigquery st) (calls st),
     mk_State (_db st) (environ st) (bigquery st) (calls st ++ [c])).

(** [os.getenv(key)] *)
Fixpoint lookup (env : list (str * str)) (key : str) : option str :=
  match env with
  | [] => None
  | (k, v) :: env' => if str_eqb k key then Some v else lookup env' key
  end.

Definition os_getenv (key : str) : M (option str) :=
  fun st => (Return (lookup (environ st) key), st).

(** [os.environ[key] = value] *)
Definition os_environ_set (key value : str) : M unit :=
  fun st =>
    (Return tt,
     mk_State (_db st) ((key, value) :: environ st) (bigquery st) (calls st)).

(** Truth value of an [Optional[str]]: [None] and the empty string are
    false. *)
Definition truthy (o : option str) : bool :=
  match o with
  | Some (_ :: _) => true
  | _ => false
  end.

Definition the (o : option str) : str :=
  match o with
  | Some s => s
  | None => []
  end.

(* ================================================================== *)
(** * [class BigQueryDatabase] *)
(* ================================================================== *)

Module BigQueryDatabase.

Definition t := BigQueryDatabase_t.

Definition cloud_platform_scope : str :=
  lit "https://www.googleapis.com/auth/cloud-platform".

(** [__init__(self, project, location, key_file, datasets_filter)] *)
Definition __init__ (project location key_file : option str)
  (datasets_filter : list str) : M t :=
  if negb (truthy project) then
    raise (mk_exn ValueError (lit "Project is required"))
  else if negb (truthy location) then
    raise (mk_exn ValueError (lit "Location is required"))
  else
    let project := the project in
    let location := the location in
    credentials <-
      (if truthy key_file then
         try_except_Exception
           (c <- call (Credentials_from_service_account_file
                         (the key_file) [cloud_platform_scope])
                      (fun bq log =>
                         on_from_service_account_file bq log (the key_file)
                           [cloud_platform_scope]) ;;
            ret (Some c))
           (fun e =>
              raise (mk_exn ValueError
                       (lit "Invalid key file: " ++ exn_str e)))
       else ret None) ;;
    _ <- call (Client_init credentials project location)
              (fun bq log => on_Client_init bq log credentials project
                               location) ;;
    ret (mk_BigQueryDatabase
           (mk_Client credentials project location) datasets_filter).

(** [self.client.query(query, job_config=...)]; without [job_config]
    when [query_parameters] is [None]. *)
Definition client_query (self : t) (query : str)
  (query_parameters : option (list ScalarQueryParameter)) : M QueryJob :=
  call (Client_query (client self) query query_parameters)
       (fun bq log => on_query bq log (client self) query query_parameters).

(** [execute_query(self, query, params=None)] *)
Definition execute_query (self : t) (query : str)
  (params : option (list ScalarQueryParameter))
  : M (list (list (str * pyval))) :=
  try_except_Exception
    (job <-
       match params with
       | Some (_ :: _) => client_query self query params
       | _ => client_query self query None
       end ;;
     results <- lift (result job) ;;
     let rows := map dict results in
     ret rows)
    (fun e => raise e).

(** The loop of [list_tables] over the datasets. *)
Fixpoint tables_of (self : t) (datasets : list str) (tables : list str)
  : M (list str) :=
  match datasets with
  | [] => ret tables
  | dataset_id :: datasets' =>
      dataset_tables <-
        call (Client_list_tables (client self) dataset_id)
             (fun bq log => on_list_tables bq log (client self) dataset_id) ;;
      tables_of self datasets'
        (tables ++ map (fun table_id => dataset_id ++ [c_dot] ++ table_id)
                       dataset_tables)
  end.

(** [list_tables(self)].  [self.client.dataset(d)] builds a reference to
    [d] without calling the service; a dataset is kept as its
    [dataset_id]. *)
Definition list_tables (self : t) : M (list str) :=
  datasets <-
    match datasets_filter self with
    | _ :: _ => ret (datasets_filter self)
    | [] =>
        call (Client_list_datasets (client self))
             (fun bq log => on_list_datasets bq log (client self))
    end ;;
  tables_of self datasets [].

(** The text of the query of [describe_table], an f-string in which only
    [dataset_id] is substituted. *)
Definition ddl_query (dataset_id : str) : str :=
  [c_newline] ++ lit "            SELECT ddl" ++
  [c_newline] ++ lit "            FROM " ++ dataset_id
              ++ lit ".INFORMATION_SCHEMA.TABLES" ++
  [c_newline] ++ lit "            WHERE table_name = @table_name;" ++
  [c_newline] ++ lit "        ".

(** [describe_table(self, table_name)] *)
Definition describe_table (self : t) (table_name : str)
  : M (list (list (str * pyval))) :=
  let parts := split table_name c_dot in
  if negb (List.length parts =? 2) then
    raise (mk_exn ValueError (lit "Invalid table name: " ++ table_name))
  else
    match parts with
    | [dataset_id; table_id] =>
        let query := ddl_query dataset_id in
        execute_query self query
          (Some [mk_ScalarQueryParameter (lit "table_name") (lit "STRING")
                   table_id])
    | _ => raise (mk_exn ValueError (lit "cannot unpack"))
    end.

End BigQueryDatabase.

(* ================================================================== *)
(** * The tools registered with FastMCP *)
(* ================================================================== *)

Definition get_db : M BigQueryDatabase.t :=
  fun st =>
    match _db st with
    | None =>
        (Raise (mk_exn RuntimeError (lit "BigQueryDatabase not initialized")),
         st)
    | Some db => (Return db, st)
    end.

(** [json.dumps(results, indent=2)] inside a handler *)
Definition json_dumps (obj : pyval) : M str := lift (json.dumps obj).

(** The [except Exception as e] clause shared by the three tools *)
Definition error_string (e : exn) : M str :=
  ret (lit "Error: " ++ exn_str e).

Definition execute_query (query : str) : M str :=
  db <- get_db ;;
  try_except_Exception
    (results <- BigQueryDatabase.execute_query db query None ;;
     json_dumps (PList (map PDict results)))
    error_string.

Definition list_tables : M str :=
  db <- get_db ;;
  try_except_Exception
    (tables <- BigQueryDatabase.list_tables db ;;
     json_dumps (PList (map PStr tables)))
    error_string.

Definition describe_table (table_name : str) : M str :=
  db <- get_db ;;
  try_except_Exception
    (schema <- BigQueryDatabase.describe_table db table_name ;;
     json_dumps (PList (map PDict schema)))
    error_string.

(** ** The registry *)

(** The annotation of a parameter; the tools only use [str]. *)
Inductive annotation := ann_str.

(** What [@mcp.tool()] records of a function: its name and its
    parameters. *)
Record Tool := mk_Tool {
  tool_name : str;
  parameters : list (str * annotation)
}.

(** [mcp.tool()] applied to a function: the tool is added under the name
    of the function unless that name is taken. *)
Definition tool (registry : list Tool) (f : Tool) : list Tool :=
  if existsb (fun g => str_eqb (tool_name g) (tool_name f)) registry
  then registry
  else registry ++ [f].

(** The three decorated definitions, in the order of the module. *)
Definition mcp_tools : list Tool :=
  let r := [] in
  let r := tool r (mk_Tool (lit "execute_query") [(lit "query", ann_str)]) in
  let r := tool r (mk_Tool (lit "list_tables") []) in
  let r := tool r (mk_Tool (lit "describe_table")
                     [(lit "table_name", ann_str)]) in
  r.

(** A call of a tool with its arguments bound. *)
Inductive Invocation :=
| call_execute_query (query : str)
| call_list_tables
| call_describe_table (table_name : str).

Definition invoke (i : Invocation) : M str :=
  match i with
  | call_execute_query query => execute_query query
  | call_list_tables => list_tables
  | call_describe_table table_name => describe_table table_name
  end.

(** Keyword arguments against the parameters of a tool: every parameter
    is given once, by name, with a value of its annotation, and nothing
    else is given. *)
Fixpoint bind_arguments (params : list (str * annotation))
  (arguments : list (str * pyval)) : option (list str) :=
  match params, arguments with
  | [], [] => Some []
  | (p, ann_str) :: params', (k, PStr v) :: arguments' =>
      if str_eqb p k then
        match bind_arguments params' arguments' with
        | Some vs => Some (v :: vs)
        | None => None
        end
      else None
  | _, _ => None
  end.

(** The function behind each registered name. *)
Definition tool_fn (tool_name : str) (args : list str) : option Invocation :=
  if str_eqb tool_name (lit "execute_query") then
    match args with [query] => Some (call_execute_query query) | _ => None end
  else if str_eqb tool_name (lit "list_tables") then
    match args with [] => Some call_list_tables | _ => None end
  else if str_eqb tool_name (lit "describe_table") then
    match args with
    | [table_name] => Some (call_describe_table table_name)
    | _ => None
    end
  else None.

(** A tool call by name: the tool is looked up in the registry and its
    arguments are bound to the parameters of the function. *)
Definition call_tool (tool_name_ : str) (arguments : list (str * pyval))
  : option Invocation :=
  match find (fun f => str_eqb (tool_name f) tool_name_) mcp_tools with
  | Some f =>
      match bind_arguments (parameters f) arguments with
      | Some args => tool_fn tool_name_ args
      | None => None
      end
  | None => None
  end.

(* ================================================================== *)
(** * The HTTP application *)
(* ================================================================== *)

(** [mcp_status], the handler of [GET /mcp] *)
Definition mcp_status : M pyval :=
  ret (PDict [(lit "status", PStr (lit "ok"));
              (lit "message", PStr (lit "MCP BigQuery server is running."));
              (lit "sse_endpoint", PStr (lit "/mcp/sse"))]).

Inductive Endpoint :=
| endpoint_mcp_status
| endpoint_handle_post_message
| endpoint_handle_sse.

(** The routes added by the module, in order: [@app.get("/mcp")], the
    mount of the message handler, [@app.get("/mcp/sse")]. *)
Definition routes : list (str * Endpoint) :=
  [(lit "/mcp", endpoint_mcp_status);
   (lit "/mcp/messages", endpoint_handle_post_message);
   (lit "/mcp/sse", endpoint_handle_sse)].

(** The path under which an endpoint is served. *)
Definition path_of (e : Endpoint) : option str :=
  match find (fun r => match snd r, e with
                       | endpoint_mcp_status, endpoint_mcp_status => true
                       | endpoint_handle_post_message,
                         endpoint_handle_post_message => true
                       | endpoint_handle_sse, endpoint_handle_sse => true
                       | _, _ => false
                       end) routes with
  | Some r => Some (fst r)
  | None => None
  end.

(** [d.get(key)] on the items of a dict *)
Fixpoint dict_get (d : list (str * pyval)) (key : str) : option pyval :=
  match d with
  | [] => None
  | (k, v) :: d' => if str_eqb k key then Some v else dict_get d' key
  end.

(* ================================================================== *)
(** * Initialisation *)
(* ================================================================== *)

Definition set_db (db : BigQueryDatabase.t) : M unit :=
  fun st =>
    (Return tt, mk_State (Some db) (environ st) (bigquery st) (calls st)).

Definition init_db_from_env : M unit :=
  project <- os_getenv (lit "BQ_PROJECT_ID") ;;
  location <- os_getenv (lit "BQ_LOCATION") ;;
  key_file <- os_getenv (lit "BQ_KEY_FILE") ;;
  bq_datasets <- os_getenv (lit "BQ_DATASETS") ;;
  let datasets :=
    if truthy bq_datasets then split (the bq_datasets) c_comma else [] in
  db <- BigQueryDatabase.__init__ project location key_file datasets ;;
  set_db db.

(** The command line of [main], as parsed by [argparse]. *)
Record Args := mk_Args {
  args_project : option str;
  args_location : option str;
  args_key_file : option str;
  args_dataset : option (list str);
  args_port : Z
}.

Definition when (b : bool) (m : M unit) : M unit :=
  if b then m else ret tt.

(** [main] up to the call of [uvicorn.run]. *)
Definition main (args : Args) : M unit :=
  _ <- when (truthy (args_project args))
         (os_environ_set (lit "BQ_PROJECT_ID") (the (args_project args))) ;;
  _ <- when (truthy (args_location args))
         (os_environ_set (lit "BQ_LOCATION") (the (args_location args))) ;;
  _ <- when (truthy (args_key_file args))
         (os_environ_set (lit "BQ_KEY_FILE") (the (args_key_file args))) ;;
  _ <- match args_dataset args with
       | Some ((_ :: _) as dataset) =>
           os_environ_set (lit "BQ_DATASETS") (join [c_comma] dataset)
       | _ => ret tt
       end ;;
  init_db_from_env.

(** What the server does once it runs: it answers tool calls and status
    requests, one handler at a time (no handler awaits). *)
Inductive serving : State -> State -> Prop :=
| serving_start st : serving st st
| serving_tool st st' i : serving st st' -> serving st (snd (invoke i st'))
| serving_status st st' : serving st st' -> serving st (snd (mcp_status st')).

(** The number of clients constructed in a log. *)
Fixpoint clients_constructed (log : list Call) : nat :=
  match log with
  | [] => 0
  | Client_init _ _ _ :: log' => S (clients_constructed log')
  | _ :: log' => clients_constructed log'
  end.

(** The client a logged call was made on, if it is a method call. *)
Definition self_of (c : Call) : option Client :=
  match c with
  | Client_query self _ _ => Some self
  | Client_list_datasets self => Some self
  | Client_list_tables self _ => Some self
  | _ => None
  end.

(** A backend that only raises exceptions derived from [Exception]. *)
Definition raises_Exception {A} (o : outcome A) : Prop :=
  match o with
  | Return _ => True
  | Raise e => isinstance_Exception e = true
  end.

Definition raises_only_Exception (bq : Backend) : Prop :=
  (forall log self q ps,
      raises_Exception (on_query bq log self q ps) /\
      match on_query bq log self q ps with
      | Return job => raises_Exception (result job)
      | Raise _ => True
      end) /\
  (forall log self, raises_Exception (on_list_datasets bq log self)) /\
  (forall log self d, raises_Exception (on_list_tables bq log self d)).

(** ** A stub backend *)

(** Every query answers [rows]; there is one dataset with one table. *)
Definition stub_backend (rows : list Row) : Backend :=
  mk_Backend
    (fun _ filename scopes => Return (mk_Credentials filename scopes))
    (fun _ _ _ _ => Return tt)
    (fun _ _ _ _ => Return (mk_QueryJob (Return rows)))
    (fun _ _ => Return [lit "sales"])
    (fun _ _ _ => Return [lit "orders"]).

(** A backend on which every call fails with [e]. *)
Definition failing_backend (e : exn) : Backend :=
  mk_Backend
    (fun _ _ _ => Raise e)
    (fun _ _ _ _ => Raise e)
    (fun _ _ _ _ => Raise e)
    (fun _ _ => Raise e)
    (fun _ _ _ => Raise e).

Definition stub_db : BigQueryDatabase.t :=
  mk_BigQueryDatabase (mk_Client None (lit "proj") (lit "US")) [].

Definition stub_state (rows : list Row) : State :=
  mk_State (Some stub_db) [] (stub_backend rows) [].

(* ================================================================== *)
(** * Predicates used in the statements *)
(* ================================================================== *)

(** A Unicode scalar value: a code point that is not a surrogate.  Text
    decoded from UTF-8 only holds such code points. *)
Definition is_scalar_value (c : N) : bool :=
  ((c <? 55296) || ((57343 <? c) && (c <? 1114112)))%N.

Definition valid_str (s : str) : bool := forallb is_scalar_value s.

(** The keys of a dict are pairwise different. *)
Fixpoint distinct (ks : list str) : bool :=
  match ks with
  | [] => true
  | k :: ks' => negb (existsb (str_eqb k) ks') && distinct ks'
  end.

(** The values of JSON: [None], booleans, ints, strings, lists, and dicts
    (records) of such values.  An item list is a dict when its keys are
    distinct. *)
Fixpoint is_json (v : pyval) : bool :=
  match v with
  | PNone | PBool _ | PInt _ => true
  | PStr s => valid_str s
  | PList items => forallb is_json items
  | PDict items =>
      forallb (fun kv => valid_str (fst kv) && is_json (snd kv)) items
      && distinct (map fst items)
  | PObject _ => false
  end.

(** What may follow a number for it to end there. *)
Definition ends_number (rest : str) : bool :=
  match rest with
  | [] => true
  | c :: _ =>
      negb (json.is_digit c || (c =? c_dot) || (c =? 101) || (c =? 69))%N
  end.

(** The first character of an encoded value: an ASCII character that is
    neither white space nor a closing bracket. *)
Definition starts_value (out : str) : bool :=
  match out with
  | c :: _ =>
      negb (json.is_ws c) && negb (c =? c_rbracket)%N && (c <? 128)%N
  | [] => false
  end.

(** [out] is a text of [v]: the decoder reads [v] from it, whatever
    follows, with fuel for the length of [out]. *)
Definition decodes (v : pyval) (out : str) : Prop :=
  starts_value out = true /\
  forall fuel rest,
    List.length out <= fuel -> ends_number rest = true ->
    json.scan_once fuel (out ++ rest) = Some (v, rest).

Definition roundtrips (v : pyval) : Prop :=
  forall level, exists out,
    json.iterencode v level = Return out /\ decodes v out.

(** The body of the [try] block of a tool. *)
Definition try_block (i : Invocation) (db : BigQueryDatabase.t) : M str :=
  match i with
  | call_execute_query query =>
      results <- BigQueryDatabase.execute_query db query None ;;
      json_dumps (PList (map PDict results))
  | call_list_tables =>
      tables <- BigQueryDatabase.list_tables db ;;
      json_dumps (PList (map PStr tables))
  | call_describe_table table_name =>
      schema <- BigQueryDatabase.describe_table db table_name ;;
      json_dumps (PList (map PDict schema))
  end.

(** A computation that leaves the globals and the library alone, makes
    its calls on the client [c], and raises nothing outside [Exception]
    as long as the library does not. *)
Definition on_client (c : Client) (A : Type) (m : M A) : Prop :=
  forall st, exists log,
    snd (m st) = mk_State (_db st) (environ st) (bigquery st)
                   (calls st ++ log) /\
    Forall (fun k => self_of k = Some c) log /\
    (raises_only_Exception (bigquery st) -> raises_Exception (fst (m st))).

(** The parameter that [describe_table] binds to [@table_name]. *)
Definition table_name_parameter (table_id : str) : ScalarQueryParameter :=
  mk_ScalarQueryParameter (lit "table_name") (lit "STRING") table_id.

(** [st] after the calls [log]. *)
Definition appended (st : State) (log : list Call) : State :=
  mk_State (_db st) (environ st) (bigquery st) (calls st ++ log).

(** The parameters that reach [client.query]: none unless [params] is a
    non-empty list. *)
Definition job_parameters (params : option (list ScalarQueryParameter))
  : option (list ScalarQueryParameter) :=
  match params with
  | Some (_ :: _) => params
  | _ => None
  end.

(** A step of [main] that only writes [os.environ]. *)
Definition writes_environ (m : M unit) : Prop :=
  forall st, exists env,
    m st = (Return tt, mk_State (_db st) env (bigquery st) (calls st)).

(** A command line and the state of a fresh process, for the examples. *)
Definition boot_args : Args :=
  mk_Args (Some (lit "proj")) (Some (lit "US")) None None 8080.

Definition boot_state : State := mk_State None [] (stub_backend []) [].

(** The texts of the queries in a log of calls. *)
Fixpoint query_texts (log : list Call) : list str :=
  match log with
  | [] => []
  | Client_query _ q _ :: log' => q :: query_texts log'
  | _ :: log' => query_texts log'
  end.

(* ================================================================== *)
(** * Definitions for the further properties *)
(* ================================================================== *)


(** A text of ASCII characters only. *)
Definition is_ascii (s : str) : bool := forallb (fun c => (c <? 128)%N) s.

(** The names [list_tables] builds for datasets whose tables are
    [tables_in]. *)
Definition qualified_names (tables_in : str -> list str)
  (datasets : list str) : list str :=
  flat_map (fun dataset_id =>
              map (fun table_id => dataset_id ++ [c_dot] ++ table_id)
                  (tables_in dataset_id))
           datasets.

(** The backend answers [client.list_tables(d)] with [tables_in d] for
    the datasets [datasets], at any time. *)
Definition lists_tables (bq : Backend) (self : Client)
  (tables_in : str -> list str) (datasets : list str) : Prop :=
  forall log d, In d datasets ->
    on_list_tables bq log self d = Return (tables_in d).

Definition sales_db : BigQueryDatabase.t :=
  mk_BigQueryDatabase (mk_Client None (lit "proj") (lit "US"))
    [lit "sales"; lit "hr"].

(** A command line with two [--dataset] flags. *)
Definition sales_args : Args :=
  mk_Args (Some (lit "proj")) (Some (lit "US")) None
    (Some [lit "sales"; lit "hr"]) 8080.

(** ** [mcp_client_bigquery/mcp_bq_client.py] *)

Inductive HttpMethod := GET | POST.

(** A call of [requests.get] or [requests.post]. *)
Record HttpRequest := mk_HttpRequest {
  http_method : HttpMethod;
  url : str;
  json_body : option pyval;
  stream : bool
}.

Module mcp_bq_client.

(** The functions of the client, as the request each of them sends to
    [SERVER_URL]. *)
Definition list_tables (SERVER_URL : str) : HttpRequest :=
  mk_HttpRequest GET (SERVER_URL ++ lit "/list-tables") None false.

Definition describe_table (SERVER_URL table_name : str) : HttpRequest :=
  mk_HttpRequest POST (SERVER_URL ++ lit "/describe-table")
    (Some (PDict [(lit "table_name", PStr table_name)])) false.

Definition execute_query (SERVER_URL query : str) : HttpRequest :=
  mk_HttpRequest POST (SERVER_URL ++ lit "/execute-query")
    (Some (PDict [(lit "query", PStr query)])) false.

(** Without the [sseclient] package nothing is sent. *)
Definition execute_query_sse (SSEClient : bool) (SERVER_URL query : str)
  : option HttpRequest :=
  if negb SSEClient then None
  else
    Some (mk_HttpRequest POST (SERVER_URL ++ lit "/execute-query-sse")
            (Some (PDict [(lit "query", PStr query)])) true).

(** The command line, as parsed by [argparse]. *)
Record Args := mk_Args {
  args_list_tables : bool;
  args_describe_table : option str;
  args_execute_query : option str;
  args_execute_query_sse : option str;
  args_server_url : str
}.

(** The [__main__] block: the request sent for a command line, if any. *)
Definition main (SSEClient : bool) (args : Args) : option HttpRequest :=
  let SERVER_URL := args_server_url args in
  if args_list_tables args then Some (list_tables SERVER_URL)
  else if truthy (args_describe_table args) then
    Some (describe_table SERVER_URL (the (args_describe_table args)))
  else if truthy (args_execute_query args) then
    Some (execute_query SERVER_URL (the (args_execute_query args)))
  else if truthy (args_execute_query_sse args) then
    execute_query_sse SSEClient SERVER_URL (the (args_execute_query_sse args))
  else None.

End mcp_bq_client.

(** A request path against a route of the server: a mount serves the
    paths below it, any other route its own path only. *)
Definition route_matches (route : str * Endpoint) (path : str) : bool :=
  match snd route with
  | endpoint_handle_post_message =>
      str_eqb path (fst route) || startswith path (fst route ++ lit "/")
  | _ => str_eqb path (fst route)
  end.

Definition served (path : str) : bool :=
  existsb (fun route => route_matches route path) routes.

(* ================================================================== *)
(** * Proofs: the JSON encoder and decoder *)
(* ================================================================== *)

Lemma unhex_hexdigit d : (d < 16)%N -> json.unhex (json.hexdigit d) = Some d.
Proof.
  intros H. unfold json.unhex, json.hexdigit.
  destruct (N.ltb_spec d 10).
  - replace ((48 <=? 48 + d)%N) with true by (symmetry; apply N.leb_le; lia).
    replace ((48 + d <=? 57)%N) with true by (symmetry; apply N.leb_le; lia).
    cbn [andb]. f_equal. lia.
  - replace ((48 <=? 87 + d)%N) with true by (symmetry; apply N.leb_le; lia).
    replace ((87 + d <=? 57)%N) with false by (symmetry; apply N.leb_gt; lia).
    replace ((97 <=? 87 + d)%N) with true by (symmetry; apply N.leb_le; lia).
    replace ((87 + d <=? 102)%N) with true by (symmetry; apply N.leb_le; lia).
    cbn [andb]. f_equal. lia.
Qed.

Lemma decode_format n :
  (n < 65536)%N ->
  json.decode_uXXXX (json.hexdigit (n / 4096)) (json.hexdigit ((n / 256) mod 16))
    (json.hexdigit ((n / 16) mod 16)) (json.hexdigit (n mod 16)) = Some n.
Proof.
  intros H. unfold json.decode_uXXXX.
  rewrite !unhex_hexdigit.
  - f_equal. zify. Z.to_euclidean_division_equations. lia.
  - apply N.mod_lt; lia.
  - apply N.mod_lt; lia.
  - apply N.mod_lt; lia.
  - apply N.Div0.div_lt_upper_bound; lia.
Qed.

Lemma lor_high_low a b : (b < 1024)%N -> N.lor (a * 1024) b = (a * 1024 + b)%N.
Proof.
  intros Hb.
  assert (Hland : N.land (a * 2 ^ 10) b = 0%N).
  { apply N.bits_inj. intros m. rewrite N.land_spec, N.bits_0.
    destruct (N.lt_ge_cases m 10) as [Hm | Hm].
    - now rewrite N.mul_pow2_bits_low.
    - replace b with (b mod 2 ^ 10)%N by (apply N.mod_small; exact Hb).
      rewrite N.mod_pow2_bits_high by exact Hm. apply andb_false_r. }
  change (2 ^ 10)%N with 1024%N in Hland.
  now rewrite <- N.lxor_lor, <- N.add_nocarry_lxor.
Qed.

Lemma surrogates_of c :
  (65536 <= c < 1114112)%N ->
  let n := (c - 65536)%N in
  N.lor 55296 (N.land (N.shiftr n 10) 1023) = (55296 + n / 1024)%N /\
  N.lor 56320 (N.land n 1023) = (56320 + n mod 1024)%N /\
  (n / 1024 < 1024)%N.
Proof.
  intros Hc n.
  assert (Hn : (n < 1048576)%N) by (unfold n; lia).
  assert (Hhi : (n / 1024 < 1024)%N) by (apply N.Div0.div_lt_upper_bound; lia).
  change 1023%N with (N.ones 10). rewrite !N.land_ones, N.shiftr_div_pow2.
  change (2 ^ 10)%N with 1024%N.
  rewrite (N.mod_small (n / 1024)) by exact Hhi.
  change 55296%N with (54 * 1024)%N. change 56320%N with (55 * 1024)%N.
  rewrite !lor_high_low; [auto | apply N.mod_lt; lia | exact Hhi].
Qed.

Lemma surrogates_join c :
  (65536 <= c < 1114112)%N ->
  let n := (c - 65536)%N in
  (65536 + N.lor (N.shiftl (55296 + n / 1024 - 55296) 10)
                 (56320 + n mod 1024 - 56320))%N = c.
Proof.
  intros Hc n.
  rewrite (N.add_comm 55296), (N.add_comm 56320), !N.add_sub.
  rewrite N.shiftl_mul_pow2. change (2 ^ 10)%N with 1024%N.
  rewrite lor_high_low by (apply N.mod_lt; lia).
  unfold n. zify. Z.to_euclidean_division_equations. lia.
Qed.

Arguments json.decode_uXXXX : simpl never.

Lemma scanstring_single h1 h2 h3 h4 s uni :
  json.decode_uXXXX h1 h2 h3 h4 = Some uni ->
  ((55296 <=? uni) && (uni <=? 56319))%N = false ->
  json.scanstring (c_backslash :: 117%N :: h1 :: h2 :: h3 :: h4 :: s)
  = json.cons_char uni (json.scanstring s).
Proof.
  intros Hd Hr. simpl. rewrite Hd, Hr. reflexivity.
Qed.

Lemma scanstring_pair h1 h2 h3 h4 g1 g2 g3 g4 s uni uni2 :
  json.decode_uXXXX h1 h2 h3 h4 = Some uni ->
  json.decode_uXXXX g1 g2 g3 g4 = Some uni2 ->
  ((55296 <=? uni) && (uni <=? 56319))%N = true ->
  ((56320 <=? uni2) && (uni2 <=? 57343))%N = true ->
  json.scanstring (c_backslash :: 117%N :: h1 :: h2 :: h3 :: h4 ::
                   c_backslash :: 117%N :: g1 :: g2 :: g3 :: g4 :: s)
  = json.cons_char
      (65536 + N.lor (N.shiftl (uni - 55296) 10) (uni2 - 56320))%N
      (json.scanstring s).
Proof.
  intros Hd Hd2 Hr Hr2. simpl. rewrite Hd, Hr. simpl. rewrite Hd2, Hr2. reflexivity.
Qed.

Lemma scanstring_escape_char c s :
  is_scalar_value c = true ->
  json.scanstring (json.escape_char c ++ s)
  = json.cons_char c (json.scanstring s).
Proof.
  intros Hc. unfold json.escape_char.
  destruct (json.needs_escape c) eqn:Hesc.
  - unfold json.replace.
    destruct (N.eqb_spec c c_backslash) as [-> | Hbs]; [reflexivity |].
    destruct (N.eqb_spec c c_quote) as [-> | Hq]; [reflexivity |].
    destruct (N.eqb_spec c 8) as [-> | H8]; [reflexivity |].
    destruct (N.eqb_spec c 12) as [-> | H12]; [reflexivity |].
    destruct (N.eqb_spec c 10) as [-> | H10]; [reflexivity |].
    destruct (N.eqb_spec c 13) as [-> | H13]; [reflexivity |].
    destruct (N.eqb_spec c 9) as [-> | H9]; [reflexivity |].
    unfold is_scalar_value in Hc.
    destruct (N.ltb_spec c 65536) as [Hlt | Hge].
    + unfold json.format_u04x. cbn [List.app].
      apply scanstring_single; [now apply decode_format |].
      apply andb_false_iff.
      destruct (N.ltb_spec c 55296); [left; apply N.leb_gt; lia |].
      right. apply N.leb_gt. 
      destruct (N.ltb_spec 57343 c); [lia | discriminate].
    + assert (Hr : (65536 <= c < 1114112)%N).
      { split; [exact Hge |].
        destruct (N.ltb_spec c 55296); [lia |].
        destruct (N.ltb_spec 57343 c); [| discriminate].
        simpl in Hc. now apply N.ltb_lt. }
      destruct (surrogates_of Hr) as (E1 & E2 & Hhi).
      cbv zeta. rewrite E1, E2. unfold json.format_u04x. cbn [List.app].
      erewrite scanstring_pair.
      * rewrite (surrogates_join Hr). reflexivity.
      * apply decode_format.
        revert Hhi. generalize ((c - 65536) / 1024)%N. intros q Hqq. lia.
      * apply decode_format.
        assert (Hlo : ((c - 65536) mod 1024 < 1024)%N) by (apply N.mod_lt; lia).
        revert Hlo. generalize ((c - 65536) mod 1024)%N. intros q Hqq. lia.
      * revert Hhi. generalize ((c - 65536) / 1024)%N. intros q Hqq.
        apply andb_true_iff; split; apply N.leb_le; lia.
      * assert (Hlo : ((c - 65536) mod 1024 < 1024)%N) by (apply N.mod_lt; lia).
        revert Hlo. generalize ((c - 65536) mod 1024)%N. intros q Hqq.
        apply andb_true_iff; split; apply N.leb_le; lia.
  - unfold json.needs_escape in Hesc.
    apply orb_false_iff in Hesc as [Hesc H126].
    apply orb_false_iff in Hesc as [Hesc H32].
    apply orb_false_iff in Hesc as [Hbs Hq].
    cbn [List.app json.scanstring]. now rewrite Hq, Hbs, H32.
Qed.

Lemma scanstring_encode s rest :
  valid_str s = true ->
  json.scanstring (flat_map json.escape_char s ++ c_quote :: rest)
  = Some (s, rest).
Proof.
  induction s as [| c s IH]; intros Hv.
  - reflexivity.
  - simpl in Hv. apply andb_true_iff in Hv as [Hc Hs].
    cbn [flat_map]. rewrite <- List.app_assoc, scanstring_escape_char by exact Hc.
    now rewrite IH.
Qed.

Lemma ends_number_digits rest :
  ends_number rest = true ->
  json.digits rest = (Nil, rest) /\ json.has_frac rest = false
  /\ json.has_exp rest = false.
Proof.
  destruct rest as [| c rest]; [now repeat split |].
  unfold ends_number. rewrite negb_true_iff. intros H.
  apply orb_false_iff in H as [H HE]. apply orb_false_iff in H as [H He].
  apply orb_false_iff in H as [Hd Hdot].
  cbn [json.digits json.has_frac json.has_exp].
  rewrite Hd, Hdot, He, HE. repeat split. now destruct rest.
Qed.

Lemma digits_uint_chars u rest :
  ends_number rest = true ->
  json.digits (json.uint_chars u ++ rest) = (u, rest).
Proof.
  intros Hr. induction u; cbn [json.uint_chars List.app];
    try (cbn [json.digits]; rewrite IHu; reflexivity).
  now apply ends_number_digits.
Qed.

Lemma to_uint_head p :
  exists c cs, json.uint_chars (Pos.to_uint p) = c :: cs /\
               json.is_digit c = true /\ (c =? 48)%N = false.
Proof.
  assert (Hn : Pos.to_uint p = unorm (Pos.to_uint p)).
  { change (Pos.to_uint p) with (N.to_uint (Npos p)) at 1.
    rewrite <- (DecimalPos.Unsigned.of_to p) at 1.
    apply DecimalPos.Unsigned.to_of. }
  pose proof (DecimalPos.Unsigned.to_uint_nonzero p) as Hz.
  pose proof (nzhead_nonzero (Pos.to_uint p)) as Hh.
  unfold unorm in Hn.
  destruct (nzhead (Pos.to_uint p)) eqn:E; rewrite Hn;
    try (now elim Hz); try (now elim (Hh u));
    cbn [json.uint_chars]; do 2 eexists; (split; [reflexivity | split; reflexivity]).
Qed.

Lemma scan_once_number fuel c s :
  (json.is_digit c || (c =? c_minus))%N = true ->
  json.scan_once (S fuel) (c :: s) = json.match_number (c :: s).
Proof.
  intros Hc.
  assert (Hr : (45 <= c <= 57)%N).
  { apply orb_true_iff in Hc as [Hc | Hc].
    - unfold json.is_digit in Hc. apply andb_true_iff in Hc as [H1 H2].
      apply N.leb_le in H1, H2. lia.
    - apply N.eqb_eq in Hc. subst c. unfold c_minus. lia. }
  cbn [json.scan_once].
  replace (c =? c_quote)%N with false by (symmetry; apply N.eqb_neq; unfold c_quote; lia).
  replace (c =? c_lbrace)%N with false by (symmetry; apply N.eqb_neq; unfold c_lbrace; lia).
  replace (c =? c_lbracket)%N with false by (symmetry; apply N.eqb_neq; unfold c_lbracket; lia).
  cbn [lit list_ascii_of_string map json.strip_prefix].
  replace (c =? ord "n")%N with false by (symmetry; apply N.eqb_neq; cbv [ord N_of_ascii N_of_digits]; lia).
  replace (c =? ord "t")%N with false by (symmetry; apply N.eqb_neq; cbv [ord N_of_ascii N_of_digits]; lia).
  replace (c =? ord "f")%N with false by (symmetry; apply N.eqb_neq; cbv [ord N_of_ascii N_of_digits]; lia).
  reflexivity.
Qed.

Lemma match_number_int_repr z rest :
  ends_number rest = true ->
  json.match_number (json.int_repr z ++ rest) = Some (PInt z, rest)
  /\ exists c cs, json.int_repr z = c :: cs
                  /\ (json.is_digit c || (c =? c_minus))%N = true.
Proof.
  intros Hr. destruct (ends_number_digits rest Hr) as (_ & Hf & He).
  unfold json.match_number, json.int_repr.
  destruct z as [| p | p]; cbn [Z.to_int].
  - cbn. rewrite Hf, He. split; [reflexivity | now do 2 eexists].
  - destruct (to_uint_head p) as (c & cs & E & Hd & H0).
    pose proof (digits_uint_chars (Pos.to_uint p) rest Hr) as Hdig.
    rewrite E in *. cbn [List.app] in *.
    assert (Hm : (c =? c_minus)%N = false).
    { unfold json.is_digit in Hd. apply andb_true_iff in Hd as [H1 _].
      apply N.leb_le in H1. apply N.eqb_neq. unfold c_minus. lia. }
    unfold json.match_integer. rewrite Hm, H0, Hd, Hdig, Hf, He. cbn [orb].
    split; [| exists c, cs; now rewrite Hd].
    do 3 f_equal. apply (DecimalZ.of_to (Zpos p)).
  - destruct (to_uint_head p) as (c & cs & E & Hd & H0).
    pose proof (digits_uint_chars (Pos.to_uint p) rest Hr) as Hdig.
    rewrite E in *. cbn [List.app] in *.
    unfold json.match_integer. cbn [N.eqb c_minus Pos.eqb].
    rewrite H0, Hd, Hdig, Hf, He. cbn [orb].
    split; [| exists c_minus, (c :: cs); split; [reflexivity | apply orb_true_r]].
    do 3 f_equal. apply (DecimalZ.of_to (Zneg p)).
Qed.

Section pyval_induction.
Variable P : pyval -> Prop.
Hypothesis HNone : P PNone.
Hypothesis HBool : forall b, P (PBool b).
Hypothesis HInt : forall z, P (PInt z).
Hypothesis HStr : forall s, P (PStr s).
Hypothesis HList : forall items, Forall P items -> P (PList items).
Hypothesis HDict :
  forall items, Forall (fun kv => P (snd kv)) items -> P (PDict items).
Hypothesis HObject : forall t, P (PObject t).

Fixpoint pyval_nested_ind (v : pyval) : P v :=
  match v with
  | PNone => HNone
  | PBool b => HBool b
  | PInt z => HInt z
  | PStr s => HStr s
  | PList items =>
      HList ((fix all (l : list pyval) : Forall P l :=
                match l with
                | [] => Forall_nil P
                | x :: l' => Forall_cons x (pyval_nested_ind x) (all l')
                end) items)
  | PDict items =>
      HDict ((fix all (l : list (str * pyval))
               : Forall (fun kv => P (snd kv)) l :=
                match l with
                | [] => Forall_nil _
                | kv :: l' =>
                    Forall_cons kv (pyval_nested_ind (snd kv)) (all l')
                end) items)
  | PObject t => HObject t
  end.
End pyval_induction.

(** Unfolding equations of the decoder *)

Lemma scan_once_string fuel s :
  json.scan_once (S fuel) (c_quote :: s) =
  match json.scanstring s with
  | Some (chars, rest) => Some (PStr chars, rest)
  | None => None
  end.
Proof. reflexivity. Qed.

Lemma scan_once_array fuel s :
  json.scan_once (S fuel) (c_lbracket :: s) =
  match json.skip_ws s with
  | c' :: s2 =>
      if (c' =? c_rbracket)%N then Some (PList [], s2)
      else
        match json.JSONArray_loop fuel (c' :: s2) with
        | Some (values, rest) => Some (PList values, rest)
        | None => None
        end
  | [] => None
  end.
Proof. reflexivity. Qed.

Lemma scan_once_object fuel s :
  json.scan_once (S fuel) (c_lbrace :: s) =
  match json.skip_ws s with
  | c' :: s2 =>
      if (c' =? c_rbrace)%N then Some (PDict [], s2)
      else if (c' =? c_quote)%N then
        match json.JSONObject_loop fuel s2 with
        | Some (pairs, rest) => Some (PDict (dict pairs), rest)
        | None => None
        end
      else None
  | [] => None
  end.
Proof. reflexivity. Qed.

Lemma JSONArray_loop_eq fuel s :
  json.JSONArray_loop (S fuel) s =
  match json.scan_once fuel s with
  | None => None
  | Some (value, s1) =>
      match json.skip_ws s1 with
      | c :: s2 =>
          if (c =? c_rbracket)%N then Some ([value], s2)
          else if (c =? c_comma)%N then
            match json.JSONArray_loop fuel (json.skip_ws s2) with
            | Some (values, rest) => Some (value :: values, rest)
            | None => None
            end
          else None
      | [] => None
      end
  end.
Proof. reflexivity. Qed.

Lemma JSONObject_loop_eq fuel s :
  json.JSONObject_loop (S fuel) s =
  match json.scanstring s with
  | None => None
  | Some (key, s1) =>
      match json.skip_ws s1 with
      | c :: s2 =>
          if (c =? c_colon)%N then
            match json.scan_once fuel (json.skip_ws s2) with
            | None => None
            | Some (value, s3) =>
                match json.skip_ws s3 with
                | c' :: s4 =>
                    if (c' =? c_rbrace)%N then Some ([(key, value)], s4)
                    else if (c' =? c_comma)%N then
                      match json.skip_ws s4 with
                      | q :: s5 =>
                          if (q =? c_quote)%N then
                            match json.JSONObject_loop fuel s5 with
                            | Some (pairs, rest) =>
                                Some ((key, value) :: pairs, rest)
                            | None => None
                            end
                          else None
                      | [] => None
                      end
                    else None
                | [] => None
                end
            end
          else None
      | [] => None
      end
  end.
Proof. reflexivity. Qed.

Lemma skip_ws_spaces n s :
  json.skip_ws (repeat c_space n ++ s) = json.skip_ws s.
Proof. induction n; [reflexivity | exact IHn]. Qed.

Lemma skip_ws_newline_indent level s :
  json.skip_ws (json.newline_indent level ++ s) = json.skip_ws s.
Proof. unfold json.newline_indent. cbn. apply skip_ws_spaces. Qed.

Lemma skip_ws_nonws c s :
  json.is_ws c = false -> json.skip_ws (c :: s) = c :: s.
Proof. intros H. cbn [json.skip_ws]. now rewrite H. Qed.

Lemma skip_ws_value out s :
  starts_value out = true -> json.skip_ws (out ++ s) = out ++ s.
Proof.
  destruct out as [| c out]; [discriminate |].
  cbn. intros H. apply andb_true_iff in H as [H _].
  apply andb_true_iff in H as [H _].
  apply negb_true_iff in H. now rewrite H.
Qed.

Lemma ends_number_newline_indent level s :
  ends_number (json.newline_indent level ++ s) = true.
Proof. reflexivity. Qed.

Lemma decodes_None : decodes PNone (lit "null").
Proof.
  split; [reflexivity |]. intros [| fuel] rest Hf _; [cbn in Hf; lia | reflexivity].
Qed.

Lemma decodes_Bool b :
  decodes (PBool b) (if b then lit "true" else lit "false").
Proof.
  destruct b; (split; [reflexivity |]);
    intros [| fuel] rest Hf _; try (cbn in Hf; lia); reflexivity.
Qed.

Lemma decodes_Int z : decodes (PInt z) (json.int_repr z).
Proof.
  split.
  - destruct (match_number_int_repr z [] eq_refl) as (_ & c & cs & E & Hc).
    rewrite E. cbn [starts_value].
    assert (Hr : (45 <= c <= 57)%N).
    { apply orb_true_iff in Hc as [Hc | Hc].
      - unfold json.is_digit in Hc. apply andb_true_iff in Hc as [H1 H2].
        apply N.leb_le in H1, H2. lia.
      - apply N.eqb_eq in Hc. subst c. unfold c_minus. lia. }
    repeat (apply andb_true_iff; split); try apply negb_true_iff.
    + unfold json.is_ws. repeat (apply orb_false_iff; split); apply N.eqb_neq; lia.
    + apply N.eqb_neq. unfold c_rbracket. lia.
    + apply N.ltb_lt. lia.
  - intros fuel rest Hf Hr.
    destruct (match_number_int_repr z rest Hr) as (Hm & c & cs & E & Hc).
    destruct fuel as [| fuel]; [rewrite E in Hf; cbn in Hf; lia |].
    rewrite <- Hm. rewrite E. cbn [List.app]. now apply scan_once_number.
Qed.

Lemma decodes_Str s :
  valid_str s = true -> decodes (PStr s) (json.encode_basestring_ascii s).
Proof.
  intros Hv. split; [reflexivity |].
  intros [| fuel] rest Hf _; [cbn in Hf; lia |].
  unfold json.encode_basestring_ascii. cbn [List.app].
  rewrite <- List.app_assoc. cbn [List.app].
  now rewrite scan_once_string, scanstring_encode.
Qed.

Section Array.
Variable level : nat.

Let enc := fun value => json.iterencode value (S level).
Let sep := c_comma :: json.newline_indent (S level).
Let close := json.newline_indent level ++ [c_rbracket].

Lemma array_items l :
  Forall (fun x => is_json x = true -> roundtrips x) l ->
  forallb is_json l = true ->
  exists cr,
    json.encode_items enc sep false l = Return cr /\
    forall x cx fuel tail,
      decodes x cx ->
      List.length (cx ++ cr) < fuel ->
      json.JSONArray_loop fuel (cx ++ cr ++ close ++ tail)
      = Some (x :: l, tail).
Proof.
  induction 1 as [| y l Hy Hl IH]; intros Hj.
  - exists []. split; [reflexivity |].
    intros x cx [| fuel] tail [Hs Hx] Hf; [lia |].
    rewrite JSONArray_loop_eq. cbn [List.app].
    rewrite List.app_nil_r in Hf.
    unfold close. rewrite <- List.app_assoc.
    rewrite Hx by (lia || apply ends_number_newline_indent).
    now rewrite skip_ws_newline_indent.
  - cbn [forallb] in Hj. apply andb_true_iff in Hj as [Hjy Hjl].
    destruct (IH Hjl) as (cr & Ecr & Hloop).
    destruct (Hy Hjy (S level)) as (cy & Ecy & Hdy).
    exists (sep ++ cy ++ cr). split.
    { cbn [json.encode_items]. fold enc. unfold enc at 1. now rewrite Ecy, Ecr. }
    intros x cx [| fuel] tail [Hs Hx] Hf; [lia |].
    rewrite JSONArray_loop_eq.
    rewrite !List.length_app in Hf. cbn [List.length sep] in Hf.
    unfold sep at 1. rewrite <- !List.app_assoc. cbn [List.app].
    rewrite Hx by (lia || reflexivity).
    rewrite (@skip_ws_nonws c_comma) by reflexivity.
    change (c_comma =? c_rbracket)%N with false.
    change (c_comma =? c_comma)%N with true. cbv iota.
    rewrite skip_ws_newline_indent.
    rewrite skip_ws_value by apply Hdy.
    rewrite (Hloop y cy fuel tail Hdy); [reflexivity |].
    rewrite List.length_app. lia.
Qed.
End Array.

Lemma str_eqb_eq a b : str_eqb a b = true <-> a = b.
Proof.
  unfold str_eqb. destruct (list_eq_dec N.eq_dec a b); split; congruence.
Qed.

Lemma str_eqb_refl a : str_eqb a a = true.
Proof. now apply str_eqb_eq. Qed.

Lemma str_eqb_sym a b : str_eqb a b = str_eqb b a.
Proof.
  destruct (str_eqb a b) eqn:E.
  - apply str_eqb_eq in E. subst. symmetry. apply str_eqb_refl.
  - destruct (str_eqb b a) eqn:E'; [| reflexivity].
    apply str_eqb_eq in E'. subst. now rewrite str_eqb_refl in E.
Qed.

Lemma dict_set_fresh acc k v :
  existsb (str_eqb k) (map fst acc) = false ->
  dict_set acc k v = acc ++ [(k, v)].
Proof.
  induction acc as [| [k' v'] acc IH]; cbn; [reflexivity |].
  intros H. apply orb_false_iff in H as [Hk Hacc].
  rewrite str_eqb_sym, Hk. now rewrite IH.
Qed.

Lemma dict_distinct_from acc items :
  distinct (map fst items) = true ->
  (forall k, In k (map fst items) -> existsb (str_eqb k) (map fst acc) = false) ->
  fold_left (fun d kv => dict_set d (fst kv) (snd kv)) items acc = acc ++ items.
Proof.
  revert acc. induction items as [| [k v] items IH]; intros acc Hd Hfresh.
  - cbn. now rewrite List.app_nil_r.
  - cbn [map fst distinct] in Hd. apply andb_true_iff in Hd as [Hk Hd].
    apply negb_true_iff in Hk.
    cbn [fold_left fst snd].
    rewrite dict_set_fresh by (apply Hfresh; now left).
    rewrite IH; [now rewrite <- List.app_assoc | exact Hd |].
    intros k' Hin. rewrite map_app, existsb_app. cbn [map fst existsb].
    rewrite Hfresh by (now right). cbn [orb]. rewrite orb_false_r.
    destruct (str_eqb k' k) eqn:E; [| reflexivity].
    apply str_eqb_eq in E. subst k'.
    assert (Hex : existsb (str_eqb k) (map fst items) = true).
    { apply existsb_exists. exists k. split; [exact Hin | apply str_eqb_refl]. }
    congruence.
Qed.

Lemma dict_distinct items :
  distinct (map fst items) = true -> dict items = items.
Proof.
  intros Hd. unfold dict. now rewrite dict_distinct_from.
Qed.

Section Object.
Variable level : nat.

Let enc := fun item : str * pyval =>
  match json.iterencode (snd item) (S level) with
  | Raise e => Raise e
  | Return chunks =>
      Return (json.encode_basestring_ascii (fst item)
                ++ [c_colon; c_space] ++ chunks)
  end.
Let sep := c_comma :: json.newline_indent (S level).
Let close := json.newline_indent level ++ [c_rbrace].

Lemma object_items l :
  Forall (fun kv => is_json (snd kv) = true -> roundtrips (snd kv)) l ->
  forallb (fun kv => valid_str (fst kv) && is_json (snd kv)) l = true ->
  exists cr,
    json.encode_items enc sep false l = Return cr /\
    forall k x cx fuel tail,
      valid_str k = true ->
      decodes x cx ->
      List.length (cx ++ cr) < fuel ->
      json.JSONObject_loop fuel
        (flat_map json.escape_char k
           ++ c_quote :: c_colon :: c_space :: cx ++ cr ++ close ++ tail)
      = Some ((k, x) :: l, tail).
Proof.
  induction 1 as [| [ky y] l Hy Hl IH]; intros Hj.
  - exists []. split; [reflexivity |].
    intros k x cx [| fuel] tail Hk [Hs Hx] Hf; [lia |].
    rewrite JSONObject_loop_eq, scanstring_encode by exact Hk.
    rewrite (@skip_ws_nonws c_colon) by reflexivity.
    change (c_colon =? c_colon)%N with true. cbv iota.
    change (json.skip_ws (c_space :: ?s)) with (json.skip_ws s).
    rewrite skip_ws_value by exact Hs.
    cbn [List.app]. rewrite List.app_nil_r in Hf.
    unfold close. rewrite <- List.app_assoc.
    rewrite Hx by (lia || apply ends_number_newline_indent).
    now rewrite skip_ws_newline_indent.
  - cbn [forallb fst snd] in Hj, Hy. apply andb_true_iff in Hj as [Hjy Hjl].
    apply andb_true_iff in Hjy as [Hvk Hjy].
    destruct (IH Hjl) as (cr & Ecr & Hloop).
    destruct (Hy Hjy (S level)) as (cy & Ecy & Hdy).
    exists (sep ++ (json.encode_basestring_ascii ky
                      ++ [c_colon; c_space] ++ cy) ++ cr). split.
    { cbn [json.encode_items]. fold enc. unfold enc at 1. cbn [fst snd].
      now rewrite Ecy, Ecr. }
    intros k x cx [| fuel] tail Hk [Hs Hx] Hf; [lia |].
    rewrite JSONObject_loop_eq, scanstring_encode by exact Hk.
    rewrite (@skip_ws_nonws c_colon) by reflexivity.
    change (c_colon =? c_colon)%N with true. cbv iota.
    change (json.skip_ws (c_space :: ?s)) with (json.skip_ws s).
    rewrite skip_ws_value by exact Hs.
    rewrite !List.length_app in Hf. cbn [List.length sep] in Hf.
    unfold sep at 1. unfold json.encode_basestring_ascii.
    rewrite <- !List.app_assoc. cbn [List.app].
    rewrite <- !List.app_assoc. cbn [List.app].
    rewrite Hx by (lia || reflexivity).
    rewrite (@skip_ws_nonws c_comma) by reflexivity.
    change (c_comma =? c_rbrace)%N with false.
    change (c_comma =? c_comma)%N with true. cbv iota.
    rewrite skip_ws_newline_indent.
    rewrite (@skip_ws_nonws c_quote) by reflexivity.
    change (c_quote =? c_quote)%N with true. cbv iota.
    rewrite (Hloop ky y cy fuel tail Hvk Hdy); [reflexivity |].
    rewrite List.length_app. lia.
Qed.
End Object.

Lemma is_json_roundtrips v : is_json v = true -> roundtrips v.
Proof.
  induction v as [| b | z | s | items IH | items IH | t] using pyval_nested_ind;
    intros Hj level.
  - exists (lit "null"). split; [reflexivity | apply decodes_None].
  - exists (if b then lit "true" else lit "false").
    split; [now destruct b | apply decodes_Bool].
  - exists (json.int_repr z). split; [reflexivity | apply decodes_Int].
  - exists (json.encode_basestring_ascii s).
    split; [reflexivity | now apply decodes_Str].
  - destruct items as [| x xs].
    + exists (lit "[]"). split; [reflexivity |]. split; [reflexivity |].
      intros [| fuel] rest Hf _; [cbn in Hf; lia | reflexivity].
    + cbn [is_json forallb] in Hj. apply andb_true_iff in Hj as [Hjx Hjxs].
      inversion IH as [| ? ? Hx Hxs]; subst.
      destruct (Hx Hjx (S level)) as (cx & Ecx & Hdx).
      destruct (array_items level Hxs Hjxs) as (cr & Ecr & Hloop).
      exists ([c_lbracket] ++ json.newline_indent (S level) ++ ([] ++ cx ++ cr)
                ++ json.newline_indent level ++ [c_rbracket]).
      split.
      { cbn [json.iterencode json.encode_items]. now rewrite Ecx, Ecr. }
      split; [reflexivity |].
      intros [| fuel] rest Hf _; [cbn in Hf; lia |].
      cbn [List.app]. rewrite !List.length_app in Hf. cbn [List.length] in Hf.
      rewrite scan_once_array.
      rewrite <- !List.app_assoc, skip_ws_newline_indent.
      rewrite skip_ws_value by apply Hdx.
      destruct Hdx as [Hs Hx'].
      destruct cx as [| c cx]; [discriminate |].
      cbn [starts_value] in Hs. apply andb_true_iff in Hs as [Hs Hlt].
      apply andb_true_iff in Hs as [Hws Hrb]. apply negb_true_iff in Hrb.
      cbn [List.app]. rewrite Hrb.
      pose proof (Hloop x (c :: cx) fuel rest) as Hl.
      cbn [List.app] in Hl. rewrite <- List.app_assoc in Hl. cbn [List.app] in Hl.
      rewrite Hl;
        [reflexivity | |
         cbn [List.app List.length] in *; rewrite ?List.length_app; lia].
      split; [| exact Hx'].
      cbn [starts_value]. now rewrite Hws, Hrb, Hlt.
  - destruct items as [| [k x] xs].
    + exists (lit "{}"). split; [reflexivity |]. split; [reflexivity |].
      intros [| fuel] rest Hf _; [cbn in Hf; lia | reflexivity].
    + pose proof Hj as Hj0.
      cbn [is_json forallb fst snd map distinct] in Hj.
      apply andb_true_iff in Hj as [Hj Hdist].
      apply andb_true_iff in Hj as [Hjx Hjxs].
      apply andb_true_iff in Hjx as [Hvk Hjx].
      inversion IH as [| ? ? Hx Hxs]; subst. cbn [snd] in Hx.
      destruct (Hx Hjx (S level)) as (cx & Ecx & Hdx).
      destruct (object_items level Hxs Hjxs) as (cr & Ecr & Hloop).
      exists ([c_lbrace] ++ json.newline_indent (S level)
                ++ ([] ++ (json.encode_basestring_ascii k
                             ++ [c_colon; c_space] ++ cx) ++ cr)
                ++ json.newline_indent level ++ [c_rbrace]).
      split.
      { cbn [json.iterencode json.encode_items fst snd]. rewrite Ecx.
        match goal with
        | |- context [json.encode_items ?f ?sp false xs] =>
            replace (json.encode_items f sp false xs) with (Return cr)
              by (symmetry; exact Ecr)
        end.
        reflexivity. }
      split; [reflexivity |].
      intros [| fuel] rest Hf _; [cbn in Hf; lia |].
      cbn [List.app]. unfold json.encode_basestring_ascii in Hf.
      repeat (progress (rewrite ?List.length_app in Hf;
                        cbn [List.length List.app] in Hf)).
      rewrite scan_once_object.
      rewrite <- !List.app_assoc, skip_ws_newline_indent.
      unfold json.encode_basestring_ascii.
      cbn [List.app]. rewrite <- !List.app_assoc. cbn [List.app].
      rewrite (@skip_ws_nonws c_quote) by reflexivity.
      change (c_quote =? c_rbrace)%N with false.
      change (c_quote =? c_quote)%N with true. cbv iota.
      pose proof (Hloop k x cx fuel rest Hvk Hdx) as Hl.
      rewrite <- !List.app_assoc in Hl. cbn [List.app] in Hl.
      rewrite Hl by (rewrite List.length_app; lia).
      rewrite dict_distinct; [reflexivity |].
      cbn [map fst distinct]. now rewrite Hdist.
  - discriminate.
Qed.

(** [json.loads] inverts [json.dumps] on JSON values. *)
Lemma loads_dumps v :
  is_json v = true ->
  exists s, json.dumps v = Return s /\ json.loads s = Some v.
Proof.
  intros Hj. destruct (is_json_roundtrips v Hj 0) as (s & Es & Hs & Hscan).
  exists s. split; [exact Es |].
  unfold json.loads.
  destruct s as [| c s]; [discriminate |].
  cbn [starts_value] in Hs. apply andb_true_iff in Hs as [Hs Hlt].
  apply andb_true_iff in Hs as [Hws Hrb]. apply negb_true_iff in Hws.
  assert (Hbom : startswith (c :: s) [65279%N] = false).
  { cbn [startswith]. apply N.ltb_lt in Hlt.
    replace (c =? 65279)%N with false by (symmetry; apply N.eqb_neq; lia).
    reflexivity. }
  rewrite Hbom, skip_ws_nonws by exact Hws.
  rewrite <- (List.app_nil_r (c :: s)) at 2.
  rewrite Hscan; [reflexivity | lia | reflexivity].
Qed.

(** A high surrogate followed by a low one does not survive the round
    trip: the decoder joins the two escapes into one character.  This is
    why [is_json] asks for scalar values. *)
Example surrogates_are_joined :
  match json.dumps (PStr [55296; 56320]%N) with
  | Return s => json.loads s
  | Raise _ => None
  end = Some (PStr [65536%N]).
Proof. reflexivity. Qed.

(* ================================================================== *)
(** * Proofs: strings *)
(* ================================================================== *)

Lemma split_nonempty s sep : split s sep <> [].
Proof.
  destruct s as [| c s]; cbn; [discriminate |].
  destruct (c =? sep)%N; [discriminate |].
  destruct (split s sep); discriminate.
Qed.

Lemma length_split s sep : List.length (split s sep) = S (count s sep).
Proof.
  induction s as [| c s IH]; [reflexivity |].
  cbn [split count]. destruct (c =? sep)%N.
  - cbn [List.length]. now rewrite IH.
  - destruct (split s sep) eqn:E; [now elim (split_nonempty s sep) |].
    cbn [List.length] in *. now rewrite IH.
Qed.

Lemma split_no_sep s sep : count s sep = 0 -> split s sep = [s].
Proof.
  induction s as [| c s IH]; [reflexivity |].
  cbn [split count]. destruct (c =? sep)%N; [discriminate |].
  intros H. now rewrite IH.
Qed.

Lemma split_at_sep d t sep :
  count d sep = 0 -> split (d ++ sep :: t) sep = d :: split t sep.
Proof.
  induction d as [| c d IH]; cbn [split count List.app].
  - now rewrite N.eqb_refl.
  - destruct (c =? sep)%N; [discriminate |].
    intros H. now rewrite IH.
Qed.

Lemma split_qualified d t :
  count d c_dot = 0 -> count t c_dot = 0 ->
  split (d ++ [c_dot] ++ t) c_dot = [d; t].
Proof.
  intros Hd Ht. cbn [List.app]. now rewrite split_at_sep, split_no_sep.
Qed.

Lemma split_two s sep d t :
  split s sep = [d; t] ->
  s = d ++ sep :: t /\ count d sep = 0 /\ count t sep = 0.
Proof.
  revert d. induction s as [| c s IH]; intros d; cbn [split count].
  - discriminate.
  - destruct (N.eqb_spec c sep) as [-> | Hc].
    + intros H. injection H as <- Ht.
      assert (Hl : List.length (split s sep) = 1) by now rewrite Ht.
      rewrite length_split in Hl.
      assert (Hc : count s sep = 0) by lia.
      rewrite split_no_sep in Ht by exact Hc. injection Ht as <-.
      repeat split; try reflexivity; exact Hc.
    + destruct (split s sep) as [| p ps] eqn:E; [discriminate |].
      intros H. injection H as <- ->.
      destruct (IH p eq_refl) as (-> & Hp & Ht).
      repeat split; try exact Ht.
      cbn [count]. apply N.eqb_neq in Hc. now rewrite Hc.
Qed.

Lemma startswith_app prefix s : startswith (prefix ++ s) prefix = true.
Proof.
  induction prefix as [| p prefix IH]; [now destruct s |].
  cbn. now rewrite N.eqb_refl.
Qed.

(* ================================================================== *)
(** * Proofs: the monad *)
(* ================================================================== *)

Lemma appended_nil st : appended st [] = st.
Proof. destruct st. unfold appended. cbn. now rewrite List.app_nil_r. Qed.

Lemma appended_appended st l1 l2 :
  appended (appended st l1) l2 = appended st (l1 ++ l2).
Proof. unfold appended. cbn. now rewrite List.app_assoc. Qed.

Lemma on_client_ret c A (a : A) : on_client c (ret a).
Proof.
  intros st. exists []. repeat split.
  - symmetry. apply appended_nil.
  - constructor.
Qed.

Lemma on_client_raise c A e :
  isinstance_Exception e = true -> on_client c (@raise A e).
Proof.
  intros He st. exists []. repeat split.
  - symmetry. apply appended_nil.
  - constructor.
  - intros _. exact He.
Qed.

Lemma on_client_lift_Exception c A (o : outcome A) :
  raises_Exception o -> on_client c (lift o).
Proof.
  intros Ho st. exists []. repeat split.
  - symmetry. apply appended_nil.
  - constructor.
  - intros _. exact Ho.
Qed.

Lemma on_client_bind c A B (m : M A) (k : A -> M B) :
  on_client c m -> (forall a, on_client c (k a)) -> on_client c (bind m k).
Proof.
  intros Hm Hk st. destruct (Hm st) as (l1 & E1 & F1 & R1).
  unfold bind. destruct (m st) as [[a | e] st1]; cbn [fst snd] in *.
  - destruct (Hk a st1) as (l2 & E2 & F2 & R2). subst st1.
    exists (l1 ++ l2). repeat split.
    + rewrite E2. apply (appended_appended st l1 l2).
    + apply Forall_app. now split.
    + exact R2.
  - exists l1. now repeat split.
Qed.

Lemma on_client_try c A (body : M A) handler :
  on_client c body -> (forall e, on_client c (handler e)) ->
  on_client c (try_except_Exception body handler).
Proof.
  intros Hm Hk st. destruct (Hm st) as (l1 & E1 & F1 & R1).
  unfold try_except_Exception.
  destruct (body st) as [[a | e] st1]; cbn [fst snd] in *.
  - exists l1. now repeat split.
  - destruct (isinstance_Exception e) eqn:He.
    + destruct (Hk e st1) as (l2 & E2 & F2 & R2). subst st1.
      exists (l1 ++ l2). repeat split.
      * rewrite E2. apply (appended_appended st l1 l2).
      * apply Forall_app. now split.
      * exact R2.
    + exists l1. now repeat split.
Qed.

Lemma on_client_call c A (k : Call) (answer : Backend -> list Call -> outcome A) :
  self_of k = Some c ->
  (forall bq log, raises_only_Exception bq -> raises_Exception (answer bq log)) ->
  on_client c (call k answer).
Proof.
  intros Hk Ha st. exists [k]. repeat split.
  - now constructor.
  - intros Hbq. now apply Ha.
Qed.

(* ================================================================== *)
(** * Proofs: [BigQueryDatabase] *)
(* ================================================================== *)

Lemma execute_query_run self q params st :
  BigQueryDatabase.execute_query self q params st =
  (match on_query (bigquery st) (calls st) (client self) q
           (job_parameters params) with
   | Raise e => Raise e
   | Return job =>
       match result job with
       | Raise e => Raise e
       | Return rows => Return (map dict rows)
       end
   end,
   mk_State (_db st) (environ st) (bigquery st)
     (calls st ++ [Client_query (client self) q (job_parameters params)])).
Proof.
  unfold BigQueryDatabase.execute_query, try_except_Exception, bind,
    BigQueryDatabase.client_query, call, lift, raise, ret.
  destruct params as [[| p ps] |]; cbn [job_parameters];
    (destruct (on_query _ _ _ _ _) as [job | e];
     [destruct (result job) as [rows | e] | ]; cbn [fst snd];
     try reflexivity; destruct (isinstance_Exception e); reflexivity).
Qed.

Lemma on_client_execute_query self q params :
  on_client (client self) (BigQueryDatabase.execute_query self q params).
Proof.
  intros st. rewrite execute_query_run. cbn [fst snd].
  eexists. repeat split.
  - repeat constructor.
  - intros (Hq & _). specialize (Hq (calls st) (client self) q (job_parameters params)).
    destruct Hq as [H1 H2].
    destruct (on_query _ _ _ _ _) as [job | e]; [| exact H1].
    destruct (result job); [exact I | exact H2].
Qed.

Lemma on_client_tables_of self datasets tables :
  on_client (client self) (BigQueryDatabase.tables_of self datasets tables).
Proof.
  revert tables. induction datasets as [| d datasets IH]; intros tables.
  - apply on_client_ret.
  - cbn [BigQueryDatabase.tables_of]. apply on_client_bind.
    + apply on_client_call; [reflexivity |].
      intros bq log (_ & _ & H). apply H.
    + intros a. apply IH.
Qed.

Lemma on_client_list_tables self :
  on_client (client self) (BigQueryDatabase.list_tables self).
Proof.
  unfold BigQueryDatabase.list_tables. apply on_client_bind.
  - destruct (datasets_filter self).
    + apply on_client_call; [reflexivity |].
      intros bq log (_ & H & _). apply H.
    + apply on_client_ret.
  - intros a. apply on_client_tables_of.
Qed.

Lemma on_client_describe_table self table_name :
  on_client (client self) (BigQueryDatabase.describe_table self table_name).
Proof.
  unfold BigQueryDatabase.describe_table.
  destruct (negb _); [now apply on_client_raise |].
  destruct (split table_name c_dot) as [| d [| t [| ? ?]]];
    try (now apply on_client_raise).
  apply on_client_execute_query.
Qed.

Lemma raises_Exception_dumps v : raises_Exception (json.dumps v).
Proof.
  unfold json.dumps. generalize 0.
  induction v as [| b | z | s | items IH | items IH | t] using pyval_nested_ind;
    intros level; try exact I.
  - now destruct b.
  - destruct items as [| x xs]; [exact I |].
    cbn [json.iterencode].
    assert (H : raises_Exception
                  (json.encode_items (fun value => json.iterencode value (S level))
                     (c_comma :: json.newline_indent (S level)) true (x :: xs))).
    { generalize true. induction IH as [| y ys Hy _ IHys]; intros first; [exact I |].
      cbn [json.encode_items]. specialize (Hy (S level)).
      destruct (json.iterencode y (S level)); [| exact Hy].
      specialize (IHys false).
      destruct (json.encode_items _ _ false ys); [exact I | exact IHys]. }
    destruct (json.encode_items _ _ true (x :: xs)); [exact I | exact H].
  - destruct items as [| kx xs]; [exact I |].
    cbn [json.iterencode].
    match goal with
    | |- raises_Exception
           match json.encode_items ?f ?sp true (kx :: xs) with _ => _ end =>
        assert (H : raises_Exception (json.encode_items f sp true (kx :: xs)))
    end.
    { generalize true. induction IH as [| y ys Hy _ IHys]; intros first; [exact I |].
      cbn [json.encode_items]. specialize (Hy (S level)).
      destruct (json.iterencode (snd y) (S level)); [| exact Hy].
      specialize (IHys false).
      destruct (json.encode_items _ _ false ys); [exact I | exact IHys]. }
    destruct (json.encode_items _ _ true (kx :: xs)); [exact I | exact H].
  - reflexivity.
Qed.

Lemma on_client_try_block i db : on_client (client db) (try_block i db).
Proof.
  destruct i; cbn [try_block]; apply on_client_bind;
    try (intros a; apply on_client_lift_Exception, raises_Exception_dumps).
  - apply on_client_execute_query.
  - apply on_client_list_tables.
  - apply on_client_describe_table.
Qed.

Lemma invoke_initialised i st db :
  _db st = Some db ->
  invoke i st = try_except_Exception (try_block i db) error_string st.
Proof.
  intros Hdb.
  destruct i; cbn [invoke try_block];
    unfold execute_query, list_tables, describe_table, bind, get_db;
    now rewrite Hdb.
Qed.

Lemma on_client_invoke i st db :
  _db st = Some db ->
  exists log,
    snd (invoke i st) = appended st log /\
    Forall (fun k => self_of k = Some (client db)) log /\
    (raises_only_Exception (bigquery st) -> raises_Exception (fst (invoke i st))).
Proof.
  intros Hdb. rewrite (invoke_initialised i st Hdb).
  apply on_client_try; [apply on_client_try_block |].
  intros e. apply on_client_ret.
Qed.

(* ================================================================== *)
(** * The claims *)
(* ================================================================== *)

(** C1, as stated, fails: a tool started before [init_db_from_env] has
    run raises the [RuntimeError] of [get_db], which is called outside
    the [try] block. *)
Lemma C1_uninitialised_tool_raises :
  fst (invoke (call_execute_query (lit "SELECT 1"))
         (mk_State None [] (stub_backend []) []))
  = Raise (mk_exn RuntimeError (lit "BigQueryDatabase not initialized")).
Proof. reflexivity. Qed.

(** C1, amended: once the backend handle is initialised, every tool,
    whatever its arguments, returns a string.  The string is what the
    [try] block returned; when the block raised an error [e] derived
    from [Exception] (in the backend, in the name check or in the
    serialisation), the error is caught and the string is [Error: ]
    followed by [str(e)]. *)
Theorem C1_tool_returns_result (i : Invocation) (st : State)
  (db : BigQueryDatabase.t) :
  _db st = Some db ->
  raises_only_Exception (bigquery st) ->
  exists s,
    fst (invoke i st) = Return s /\
    match fst (try_block i db st) with
    | Return payload => s = payload
    | Raise e => s = lit "Error: " ++ exn_str e
    end.
Proof.
  intros Hdb Hbq. rewrite (invoke_initialised i st Hdb).
  destruct (on_client_try_block i db st) as (log & _ & _ & Hr).
  specialize (Hr Hbq). unfold try_except_Exception.
  destruct (try_block i db st) as [[s | e] st1]; cbn [fst] in *.
  - now exists s.
  - rewrite Hr. now eexists.
Qed.

Lemma raises_only_Exception_failing e :
  isinstance_Exception e = true -> raises_only_Exception (failing_backend e).
Proof. intros He. repeat split; intros; exact He. Qed.

(** The hypothesis on the backend is needed: [except Exception] does not
    catch an exception that only derives from [BaseException]. *)
Example keyboard_interrupt_leaves_the_tool :
  fst (invoke (call_execute_query (lit "SELECT 1"))
         (mk_State (Some stub_db) []
            (failing_backend
               (mk_exn (BaseExceptionOnly (lit "KeyboardInterrupt")) []))
            []))
  = Raise (mk_exn (BaseExceptionOnly (lit "KeyboardInterrupt")) []).
Proof. reflexivity. Qed.

Lemma C1_tool_returns_result_witness :
  exists s,
    fst (invoke (call_describe_table (lit "sales.orders"))
           (mk_State (Some stub_db) []
              (failing_backend (mk_exn (OtherException (lit "Forbidden"))
                                       (lit "403 Access Denied")))
              []))
    = Return s /\
    match fst (try_block (call_describe_table (lit "sales.orders")) stub_db
                 (mk_State (Some stub_db) []
                    (failing_backend
                       (mk_exn (OtherException (lit "Forbidden"))
                               (lit "403 Access Denied")))
                    [])) with
    | Return payload => s = payload
    | Raise e => s = lit "Error: " ++ exn_str e
    end.
Proof.
  apply (@C1_tool_returns_result _ _ stub_db).
  - reflexivity.
  - apply raises_only_Exception_failing. reflexivity.
Defined.

(** C2: a table name that does not split into exactly two segments at
    the dots makes [describe_table] raise [ValueError] with the name in
    its message; the state, and with it the log of backend calls, is
    unchanged.  The tool turns this into its error string. *)
Theorem C2_describe_table_invalid_name (db : BigQueryDatabase.t)
  (table_name : str) (st : State) :
  List.length (split table_name c_dot) <> 2 ->
  BigQueryDatabase.describe_table db table_name st
  = (Raise (mk_exn ValueError (lit "Invalid table name: " ++ table_name)), st)
  /\ (_db st = Some db ->
      describe_table table_name st
      = (Return (lit "Error: " ++ lit "Invalid table name: " ++ table_name),
         st)).
Proof.
  intros Hlen.
  assert (E : BigQueryDatabase.describe_table db table_name st
              = (Raise (mk_exn ValueError
                          (lit "Invalid table name: " ++ table_name)), st)).
  { unfold BigQueryDatabase.describe_table.
    apply Nat.eqb_neq in Hlen. now rewrite Hlen. }
  split; [exact E |].
  intros Hdb. unfold describe_table, bind, get_db. rewrite Hdb.
  unfold try_except_Exception, bind. now rewrite E.
Qed.

Lemma C2_describe_table_invalid_name_witness :
  BigQueryDatabase.describe_table stub_db (lit "bad_name_no_dot")
    (stub_state [])
  = (Raise (mk_exn ValueError
              (lit "Invalid table name: " ++ lit "bad_name_no_dot")),
     stub_state [])
  /\ (_db (stub_state []) = Some stub_db ->
      describe_table (lit "bad_name_no_dot") (stub_state [])
      = (Return (lit "Error: " ++ lit "Invalid table name: "
                   ++ lit "bad_name_no_dot"),
         stub_state [])).
Proof.
  apply (@C2_describe_table_invalid_name stub_db (lit "bad_name_no_dot")
           (stub_state [])).
  vm_compute. discriminate.
Defined.



(** C4: [execute_query] hands every query text to [client.query] as it
    is, in one call and without parameters, whatever the text; what it
    returns or raises is what the backend returned or raised. *)
Theorem C4_execute_query_forwards_verbatim (db : BigQueryDatabase.t)
  (query : str) (st : State) :
  calls (snd (BigQueryDatabase.execute_query db query None st))
  = calls st ++ [Client_query (client db) query None]
  /\ fst (BigQueryDatabase.execute_query db query None st)
     = match on_query (bigquery st) (calls st) (client db) query None with
       | Raise e => Raise e
       | Return job =>
           match result job with
           | Raise e => Raise e
           | Return rows => Return (map dict rows)
           end
       end.
Proof. rewrite execute_query_run. split; reflexivity. Qed.

Lemma mcp_tools_eq :
  mcp_tools =
  [mk_Tool (lit "execute_query") [(lit "query", ann_str)];
   mk_Tool (lit "list_tables") [];
   mk_Tool (lit "describe_table") [(lit "table_name", ann_str)]].
Proof. reflexivity. Qed.

Lemma bind_arguments_one p arguments vs :
  bind_arguments [(p, ann_str)] arguments = Some vs ->
  exists v, arguments = [(p, PStr v)] /\ vs = [v].
Proof.
  destruct arguments as [| [k v] arguments]; cbn [bind_arguments];
    [discriminate |].
  destruct v; try discriminate.
  destruct (str_eqb p k) eqn:E; [| discriminate].
  apply str_eqb_eq in E. subst k.
  destruct arguments; [| discriminate].
  intros H. injection H as <-. now exists s.
Qed.

Lemma bind_arguments_none arguments vs :
  bind_arguments [] arguments = Some vs -> arguments = [] /\ vs = [].
Proof.
  destruct arguments; cbn [bind_arguments]; [| discriminate].
  intros H. injection H as <-. now split.
Qed.

(** C6: the registry holds exactly the tools [execute_query],
    [list_tables] and [describe_table], with the parameters [query: str],
    none, and [table_name: str]; a call by name reaches a tool exactly
    when the name is one of the three and the arguments have that
    shape. *)
Theorem C6_tools_exposed :
  map tool_name mcp_tools
  = [lit "execute_query"; lit "list_tables"; lit "describe_table"]
  /\ map parameters mcp_tools
     = [[(lit "query", ann_str)]; []; [(lit "table_name", ann_str)]]
  /\ forall name arguments i,
       call_tool name arguments = Some i <->
       (exists query,
           name = lit "execute_query" /\
           arguments = [(lit "query", PStr query)] /\
           i = call_execute_query query)
       \/ (name = lit "list_tables" /\ arguments = [] /\ i = call_list_tables)
       \/ (exists table_name,
              name = lit "describe_table" /\
              arguments = [(lit "table_name", PStr table_name)] /\
              i = call_describe_table table_name).
Proof.
  split; [reflexivity |]. split; [reflexivity |].
  intros name arguments i. split.
  - unfold call_tool. rewrite mcp_tools_eq. cbn [find tool_name].
    destruct (str_eqb (lit "execute_query") name) eqn:E1.
    { apply str_eqb_eq in E1. subst name. cbn [parameters].
      destruct (bind_arguments _ arguments) as [vs |] eqn:Eb; [| discriminate].
      apply bind_arguments_one in Eb as (v & -> & ->).
      intros H. left. exists v. repeat split. now injection H as <-. }
    destruct (str_eqb (lit "list_tables") name) eqn:E2.
    { apply str_eqb_eq in E2. subst name. cbn [parameters].
      destruct (bind_arguments _ arguments) as [vs |] eqn:Eb; [| discriminate].
      apply bind_arguments_none in Eb as (-> & ->).
      intros H. right. left. repeat split. now injection H as <-. }
    destruct (str_eqb (lit "describe_table") name) eqn:E3; [| discriminate].
    apply str_eqb_eq in E3. subst name. cbn [parameters].
    destruct (bind_arguments _ arguments) as [vs |] eqn:Eb; [| discriminate].
    apply bind_arguments_one in Eb as (v & -> & ->).
    intros H. right. right. exists v. repeat split. now injection H as <-.
  - intros [(q & -> & -> & ->) | [(-> & -> & ->) | (t & -> & -> & ->)]];
      reflexivity.
Qed.

(** C7, as stated, fails on the name of the third key: the object
    returned by [mcp_status] has the keys [status], [message] and
    [sse_endpoint], and no key [streamingEndpointPath]. *)
Lemma C7_no_streamingEndpointPath_key :
  exists d,
    fst (mcp_status (stub_state [])) = Return (PDict d) /\
    map fst d = [lit "status"; lit "message"; lit "sse_endpoint"] /\
    dict_get d (lit "streamingEndpointPath") = None.
Proof. eexists. repeat split. Qed.

(** C7, amended: for every request [mcp_status] returns an object with
    exactly the keys [status], [message] and [sse_endpoint], the last
    one holding the path under which [handle_sse] is served; the state is
    left as it was, so no backend call is made and nothing is created. *)
Theorem C7_mcp_status (st : State) :
  exists d,
    mcp_status st = (Return (PDict d), st) /\
    map fst d = [lit "status"; lit "message"; lit "sse_endpoint"] /\
    exists path,
      path_of endpoint_handle_sse = Some path /\
      dict_get d (lit "sse_endpoint") = Some (PStr path).
Proof. eexists. repeat split. eexists. split; reflexivity. Qed.

(* ================================================================== *)
(** * Proofs: initialisation and the shared handle *)
(* ================================================================== *)

Lemma clients_constructed_app l1 l2 :
  clients_constructed (l1 ++ l2) = clients_constructed l1 + clients_constructed l2.
Proof.
  induction l1 as [| k l1 IH]; [reflexivity |].
  destruct k; cbn [List.app clients_constructed]; now rewrite IH.
Qed.

Lemma clients_constructed_on_client c log :
  Forall (fun k => self_of k = Some c) log -> clients_constructed log = 0.
Proof.
  induction 1 as [| k log Hk _ IH]; [reflexivity |].
  destruct k; cbn [clients_constructed]; try exact IH; discriminate.
Qed.

(** A run of [__init__] that returns has constructed exactly one client,
    the one of the object it returns. *)
Lemma init_constructs_one_client project location key_file datasets st db st' :
  BigQueryDatabase.__init__ project location key_file datasets st
  = (Return db, st') ->
  _db st' = _db st /\ bigquery st' = bigquery st /\
  clients_constructed (calls st') = S (clients_constructed (calls st)).
Proof.
  unfold BigQueryDatabase.__init__.
  destruct (truthy project); cbn [negb]; [| discriminate].
  destruct (truthy location); cbn [negb]; [| discriminate].
  unfold bind, try_except_Exception, call, ret, raise.
  destruct (truthy key_file).
  - cbn [fst snd].
    destruct (on_from_service_account_file _ _ _ _) as [c | e]; cbn [bigquery calls].
    + destruct (on_Client_init _ _ _ _ _); [| discriminate].
      intros H. injection H as <- <-. cbn [_db bigquery calls].
      repeat split. rewrite !clients_constructed_app. cbn. lia.
    + destruct (isinstance_Exception e); discriminate.
  - cbn [bigquery calls].
    destruct (on_Client_init _ _ _ _ _); [| discriminate].
    intros H. injection H as <- <-. cbn [_db bigquery calls].
    repeat split. rewrite !clients_constructed_app. cbn. lia.
Qed.

Lemma init_db_from_env_sets_db st st1 :
  init_db_from_env st = (Return tt, st1) ->
  exists db,
    _db st1 = Some db /\
    clients_constructed (calls st1) = S (clients_constructed (calls st)).
Proof.
  unfold init_db_from_env, bind, os_getenv, set_db.
  destruct (BigQueryDatabase.__init__ _ _ _ _ st) as [[db | e] st'] eqn:E;
    [| discriminate].
  apply init_constructs_one_client in E as (_ & _ & Hc).
  intros H. injection H as <-. exists db. cbn [_db calls].
  now split.
Qed.

Lemma writes_environ_when b key value :
  writes_environ (when b (os_environ_set key value)).
Proof.
  intros st. destruct st. destruct b; cbn; eexists; reflexivity.
Qed.

Lemma main_sets_db args st0 st1 :
  main args st0 = (Return tt, st1) ->
  exists db,
    _db st1 = Some db /\
    clients_constructed (calls st1) = S (clients_constructed (calls st0)).
Proof.
  unfold main, bind.
  destruct (writes_environ_when (truthy (args_project args))
              (lit "BQ_PROJECT_ID") (the (args_project args)) st0)
    as (e1 & ->).
  destruct (writes_environ_when (truthy (args_location args))
              (lit "BQ_LOCATION") (the (args_location args))
              (mk_State (_db st0) e1 (bigquery st0) (calls st0)))
    as (e2 & ->). cbn [_db bigquery calls].
  destruct (writes_environ_when (truthy (args_key_file args))
              (lit "BQ_KEY_FILE") (the (args_key_file args))
              (mk_State (_db st0) e2 (bigquery st0) (calls st0)))
    as (e3 & ->). cbn [_db bigquery calls].
  assert (Hds : exists e4,
             match args_dataset args with
             | Some ((_ :: _) as dataset) =>
                 os_environ_set (lit "BQ_DATASETS") (join [c_comma] dataset)
             | _ => ret tt
             end (mk_State (_db st0) e3 (bigquery st0) (calls st0))
             = (Return tt, mk_State (_db st0) e4 (bigquery st0) (calls st0))).
  { destruct (args_dataset args) as [[| d ds] |]; eexists; reflexivity. }
  destruct Hds as (e4 & ->).
  intros H. apply init_db_from_env_sets_db in H. exact H.
Qed.

(** C8: after [main] has initialised the handle, the global [_db] holds
    the same object for as long as the server answers requests; every
    call the tools make on the client library is a method call on the
    client of that object, and the one client constructed during
    initialisation stays the only one. *)
Theorem C8_backend_handle_shared (args : Args) (st0 st1 st : State) :
  main args st0 = (Return tt, st1) ->
  serving st1 st ->
  exists db,
    _db st1 = Some db /\ _db st = Some db /\
    clients_constructed (calls st) = S (clients_constructed (calls st0)) /\
    exists log,
      calls st = calls st1 ++ log /\
      Forall (fun k => self_of k = Some (client db)) log.
Proof.
  intros Hmain Hserv.
  destruct (main_sets_db args st0 Hmain) as (db & Hdb & Hone).
  exists db. split; [exact Hdb |].
  assert (Hinv : _db st = Some db /\
                 exists log, calls st = calls st1 ++ log /\
                   Forall (fun k => self_of k = Some (client db)) log).
  { induction Hserv as [st | st st' i _ IH | st st' _ IH].
    - split; [exact Hdb |]. exists []. split; [now rewrite List.app_nil_r | constructor].
    - destruct (IH Hmain Hdb Hone) as (Hdb' & log & Hlog & Hall).
      destruct (on_client_invoke i st' Hdb') as (log' & -> & Hall' & _).
      cbn [appended _db calls]. split; [exact Hdb' |].
      exists (log ++ log'). split.
      + now rewrite Hlog, List.app_assoc.
      + apply Forall_app. now split.
    - exact (IH Hmain Hdb Hone). }
  destruct Hinv as (Hdb' & log & Hlog & Hall).
  split; [exact Hdb' |]. split.
  - rewrite Hlog, clients_constructed_app, Hone,
      (clients_constructed_on_client Hall). lia.
  - now exists log.
Qed.

Lemma C8_backend_handle_shared_witness :
  exists db,
    _db (snd (main boot_args boot_state)) = Some db /\
    _db (snd (invoke call_list_tables (snd (main boot_args boot_state))))
    = Some db /\
    clients_constructed
      (calls (snd (invoke call_list_tables (snd (main boot_args boot_state)))))
    = S (clients_constructed (calls boot_state)) /\
    exists log,
      calls (snd (invoke call_list_tables (snd (main boot_args boot_state))))
      = calls (snd (main boot_args boot_state)) ++ log /\
      Forall (fun k => self_of k = Some (client db)) log.
Proof.
  apply (@C8_backend_handle_shared boot_args boot_state
           (snd (main boot_args boot_state))).
  - reflexivity.
  - apply serving_tool, serving_start.
Defined.

(* ================================================================== *)
(** * Proofs: the result strings *)
(* ================================================================== *)

Lemma dumps_list_head items s :
  json.dumps (PList items) = Return s -> exists s', s = c_lbracket :: s'.
Proof.
  unfold json.dumps. destruct items as [| x xs]; cbn [json.iterencode].
  - intros H. injection H as <-. now eexists.
  - destruct (json.encode_items _ _ true (x :: xs)); [| discriminate].
    intros H. injection H as <-. now eexists.
Qed.

Lemma try_block_returns_list i db st payload st' :
  try_block i db st = (Return payload, st') ->
  exists items, json.dumps (PList items) = Return payload.
Proof.
  destruct i; cbn [try_block]; unfold bind, json_dumps, lift;
    match goal with
    | |- context [match ?m st with _ => _ end] =>
        destruct (m st) as [[r | e] st1]; [| discriminate]
    end;
    intros H; injection H as H _; eexists; exact H.
Qed.

(** C9: with the handle initialised, the string a tool returns is either
    what its [try] block returned, and then it is the [json.dumps] text
    of a list, or it is the prefix [Error: ] followed by [str(e)] for the
    exception [e] the block raised; the prefix tells the two apart. *)
Theorem C9_result_string_shape (i : Invocation) (st : State)
  (db : BigQueryDatabase.t) (s : str) :
  _db st = Some db ->
  fst (invoke i st) = Return s ->
  match fst (try_block i db st) with
  | Return payload =>
      s = payload /\
      (exists items, json.dumps (PList items) = Return s) /\
      startswith s (lit "Error: ") = false
  | Raise e =>
      isinstance_Exception e = true /\
      s = lit "Error: " ++ exn_str e /\
      startswith s (lit "Error: ") = true
  end.
Proof.
  intros Hdb. rewrite (invoke_initialised i st Hdb).
  unfold try_except_Exception.
  destruct (try_block i db st) as [[payload | e] st1] eqn:E; cbn [fst].
  - intros H. injection H as <-. split; [reflexivity |].
    destruct (try_block_returns_list i db st E) as (items & Hd).
    split; [now exists items |].
    destruct (dumps_list_head items Hd) as (s' & ->). reflexivity.
  - destruct (isinstance_Exception e); [| discriminate].
    unfold error_string, ret. cbn [fst]. intros H. injection H as <-.
    repeat split. apply (startswith_app (lit "Error: ") (exn_str e)).
Qed.

Lemma C9_result_string_shape_witness :
  match fst (try_block (call_describe_table (lit "orders")) stub_db
               (stub_state [])) with
  | Return payload =>
      lit "Error: Invalid table name: orders" = payload /\
      (exists items,
          json.dumps (PList items)
          = Return (lit "Error: Invalid table name: orders")) /\
      startswith (lit "Error: Invalid table name: orders") (lit "Error: ")
      = false
  | Raise e =>
      isinstance_Exception e = true /\
      lit "Error: Invalid table name: orders" = lit "Error: " ++ exn_str e /\
      startswith (lit "Error: Invalid table name: orders") (lit "Error: ")
      = true
  end.
Proof.
  apply (@C9_result_string_shape (call_describe_table (lit "orders"))
           (stub_state []) stub_db (lit "Error: Invalid table name: orders"));
    reflexivity.
Defined.

(** C10: for a name [d.t] with one dot, [describe_table] makes exactly
    one call, [client.query].  Its text selects [ddl] from
    [d.INFORMATION_SCHEMA.TABLES] where [table_name = @table_name]: it
    is built from [d] alone.  Its only parameter is the [STRING]
    parameter [table_name] with value [t].  Any other table of the same
    dataset gives the same query text. *)
Theorem C10_describe_table_binds_table_id (db : BigQueryDatabase.t)
  (d t : str) (st : State) :
  count d c_dot = 0 -> count t c_dot = 0 ->
  calls (snd (BigQueryDatabase.describe_table db (d ++ [c_dot] ++ t) st))
  = calls st
      ++ [Client_query (client db)
            ([c_newline] ++ lit "            SELECT ddl" ++
             [c_newline] ++ lit "            FROM " ++ d
                         ++ lit ".INFORMATION_SCHEMA.TABLES" ++
             [c_newline] ++ lit "            WHERE table_name = @table_name;" ++
             [c_newline] ++ lit "        ")
            (Some [mk_ScalarQueryParameter (lit "table_name") (lit "STRING")
                     t])]
  /\ forall t',
       count t' c_dot = 0 ->
       query_texts
         (calls (snd (BigQueryDatabase.describe_table db
                        (d ++ [c_dot] ++ t') st)))
       = query_texts
           (calls (snd (BigQueryDatabase.describe_table db
                          (d ++ [c_dot] ++ t) st))).
Proof.
  intros Hd Ht.
  assert (H : forall u, count u c_dot = 0 ->
              calls (snd (BigQueryDatabase.describe_table db
                            (d ++ [c_dot] ++ u) st))
              = calls st ++ [Client_query (client db)
                               (BigQueryDatabase.ddl_query d)
                               (Some [table_name_parameter u])]).
  { intros u Hu. unfold BigQueryDatabase.describe_table.
    rewrite (split_qualified d u Hd Hu). cbn [List.length Nat.eqb negb].
    now rewrite execute_query_run. }
  split; [now apply H |].
  intros t' Ht'. rewrite (H t Ht), (H t' Ht').
  generalize (calls st). intros log.
  induction log as [| k log IH]; [reflexivity |].
  destruct k; cbn [List.app query_texts]; now rewrite IH.
Qed.

Lemma C10_describe_table_binds_table_id_witness :
  calls (snd (BigQueryDatabase.describe_table stub_db
                (lit "sales" ++ [c_dot] ++ lit "orders") (stub_state [])))
  = calls (stub_state [])
      ++ [Client_query (client stub_db)
            ([c_newline] ++ lit "            SELECT ddl" ++
             [c_newline] ++ lit "            FROM " ++ lit "sales"
                         ++ lit ".INFORMATION_SCHEMA.TABLES" ++
             [c_newline] ++ lit "            WHERE table_name = @table_name;" ++
             [c_newline] ++ lit "        ")
            (Some [mk_ScalarQueryParameter (lit "table_name") (lit "STRING")
                     (lit "orders")])]
  /\ forall t',
       count t' c_dot = 0 ->
       query_texts
         (calls (snd (BigQueryDatabase.describe_table stub_db
                        (lit "sales" ++ [c_dot] ++ t') (stub_state []))))
       = query_texts
           (calls (snd (BigQueryDatabase.describe_table stub_db
                          (lit "sales" ++ [c_dot] ++ lit "orders")
                          (stub_state [])))).
Proof.
  apply (@C10_describe_table_binds_table_id stub_db (lit "sales")
           (lit "orders") (stub_state [])); reflexivity.
Defined.

(* ================================================================== *)
(** * Further properties: [describe_table] and the tools *)
(* ================================================================== *)

(** X1: a name with exactly one dot always passes the check of
    [describe_table], empty segments included: the call is the call of
    [execute_query] on the text for the part before the dot, with the
    part after the dot as parameter. *)
Theorem X1_describe_table_one_dot (db : BigQueryDatabase.t)
  (table_name : str) (st : State) :
  count table_name c_dot = 1 ->
  exists dataset_id table_id,
    table_name = dataset_id ++ [c_dot] ++ table_id /\
    BigQueryDatabase.describe_table db table_name st
    = BigQueryDatabase.execute_query db
        (BigQueryDatabase.ddl_query dataset_id)
        (Some [table_name_parameter table_id]) st.
Proof.
  intros Hc.
  assert (Hl : List.length (split table_name c_dot) = 2)
    by (rewrite length_split; lia).
  destruct (split table_name c_dot) as [| d [| t [| ? ?]]] eqn:E;
    try discriminate.
  destruct (split_two _ _ E) as (-> & _ & _).
  exists d, t. split; [reflexivity |].
  unfold BigQueryDatabase.describe_table.
  cbn [List.app] in *. now rewrite E.
Qed.

Lemma X1_describe_table_one_dot_witness :
  exists dataset_id table_id,
    [c_dot] = dataset_id ++ [c_dot] ++ table_id /\
    BigQueryDatabase.describe_table stub_db [c_dot] (stub_state [])
    = BigQueryDatabase.execute_query stub_db
        (BigQueryDatabase.ddl_query dataset_id)
        (Some [table_name_parameter table_id]) (stub_state []).
Proof.
  apply (@X1_describe_table_one_dot stub_db [c_dot] (stub_state [])).
  reflexivity.
Defined.

(** X2: as long as [_db] is [None], every tool, whatever its argument,
    raises the [RuntimeError] of [get_db] and leaves the state as it is:
    no call reaches the client library. *)
Theorem X2_uninitialised_tool (i : Invocation) (st : State) :
  _db st = None ->
  invoke i st
  = (Raise (mk_exn RuntimeError (lit "BigQueryDatabase not initialized")),
     st).
Proof.
  intros Hdb.
  destruct i; cbn [invoke];
    unfold execute_query, list_tables, describe_table, bind, get_db;
    now rewrite Hdb.
Qed.

Lemma X2_uninitialised_tool_witness :
  invoke (call_describe_table (lit "sales.orders")) boot_state
  = (Raise (mk_exn RuntimeError (lit "BigQueryDatabase not initialized")),
     boot_state).
Proof.
  apply (@X2_uninitialised_tool (call_describe_table (lit "sales.orders"))
           boot_state).
  reflexivity.
Defined.

(* ================================================================== *)
(** * Further properties: serialisation *)
(* ================================================================== *)





Lemma is_ascii_app a b : is_ascii (a ++ b) = is_ascii a && is_ascii b.
Proof. apply forallb_app. Qed.

Lemma hexdigit_ascii d : (d < 16)%N -> (json.hexdigit d <? 128)%N = true.
Proof.
  intros H. unfold json.hexdigit. apply N.ltb_lt.
  destruct (d <? 10)%N; lia.
Qed.

Lemma format_u04x_ascii n :
  (n < 65536)%N -> is_ascii (json.format_u04x n) = true.
Proof.
  intros H. unfold json.format_u04x, is_ascii. cbn [forallb].
  rewrite !hexdigit_ascii; try (apply N.mod_lt; lia).
  - reflexivity.
  - apply N.Div0.div_lt_upper_bound. lia.
Qed.

Lemma surrogate_below a x :
  (a < 63)%N -> (N.lor (a * 1024) (N.land x 1023) < 65536)%N.
Proof.
  intros Ha. change 1023%N with (N.ones 10). rewrite N.land_ones.
  change (2 ^ 10)%N with 1024%N.
  assert (Hx : (x mod 1024 < 1024)%N) by (apply N.mod_lt; lia).
  rewrite lor_high_low by exact Hx. lia.
Qed.

Lemma replace_ascii n : is_ascii (json.replace n) = true.
Proof.
  unfold json.replace.
  repeat match goal with
         | |- context [if (n =? ?c)%N then _ else _] =>
             destruct (n =? c)%N; [reflexivity |]
         end.
  destruct (N.ltb_spec n 65536) as [Hlt | Hge].
  - now apply format_u04x_ascii.
  - cbv zeta. rewrite is_ascii_app.
    change 55296%N with (54 * 1024)%N. change 56320%N with (55 * 1024)%N.
    rewrite !format_u04x_ascii; [reflexivity | |]; apply surrogate_below; lia.
Qed.

Lemma escape_char_ascii n : is_ascii (json.escape_char n) = true.
Proof.
  unfold json.escape_char. destruct (json.needs_escape n) eqn:E.
  - apply replace_ascii.
  - unfold json.needs_escape in E.
    apply orb_false_iff in E as [_ E]. apply N.ltb_ge in E.
    cbn. rewrite andb_true_r. apply N.ltb_lt. lia.
Qed.

Lemma encode_basestring_ascii_is_ascii s :
  is_ascii (json.encode_basestring_ascii s) = true.
Proof.
  unfold json.encode_basestring_ascii.
  change (is_ascii (c_quote :: ?l)) with (is_ascii l).
  rewrite is_ascii_app, andb_true_r.
  induction s as [| c s IH]; [reflexivity |].
  cbn [flat_map]. now rewrite is_ascii_app, escape_char_ascii, IH.
Qed.

Lemma int_repr_ascii z : is_ascii (json.int_repr z) = true.
Proof.
  assert (H : forall u, is_ascii (json.uint_chars u) = true)
    by (induction u; cbn [json.uint_chars]; trivial).
  unfold json.int_repr. destruct (Z.to_int z); [apply H |].
  change (is_ascii (c_minus :: ?l)) with (is_ascii l). apply H.
Qed.

Lemma newline_indent_ascii level : is_ascii (json.newline_indent level) = true.
Proof.
  unfold json.newline_indent.
  change (is_ascii (c_newline :: ?l)) with (is_ascii l).
  induction (2 * level) as [| n IH]; [reflexivity | exact IH].
Qed.

Lemma Return_inj A (a b : A) : Return a = Return b -> a = b.
Proof. congruence. Qed.

Lemma iterencode_ascii v :
  forall level s, json.iterencode v level = Return s -> is_ascii s = true.
Proof.
  induction v as [| b | z | s0 | items IH | items IH | t] using pyval_nested_ind;
    intros level s; cbn [json.iterencode].
  - intros H. now injection H as <-.
  - destruct b; intros H; now injection H as <-.
  - intros H. injection H as <-. apply int_repr_ascii.
  - intros H. injection H as <-. apply encode_basestring_ascii_is_ascii.
  - destruct items as [| x xs]; [intros H; now injection H as <- |].
    assert (H : forall first l chunks,
               Forall (fun v => forall level s,
                         json.iterencode v level = Return s ->
                         is_ascii s = true) l ->
               json.encode_items
                 (fun value => json.iterencode value (S level))
                 (c_comma :: json.newline_indent (S level)) first l
               = Return chunks ->
               is_ascii chunks = true).
    { intros first l chunks Hl. revert first chunks.
      induction Hl as [| y ys Hy _ IHys]; intros first chunks;
        cbn [json.encode_items].
      - intros H. now injection H as <-.
      - destruct (json.iterencode y (S level)) as [cy |] eqn:Ey; [| discriminate].
        destruct (json.encode_items _ _ false ys) as [cr |] eqn:Er;
          [| discriminate].
        intros H. injection H as <-.
        rewrite !is_ascii_app, (Hy _ _ Ey), (IHys _ _ Er).
        destruct first; [reflexivity |].
        change (is_ascii (c_comma :: ?l)) with (is_ascii l).
        now rewrite newline_indent_ascii. }
    destruct (json.encode_items _ _ true (x :: xs)) as [chunks |] eqn:Ec;
      [| discriminate].
    intros E. apply Return_inj in E. rewrite <- E.
    rewrite !is_ascii_app, !newline_indent_ascii, (H _ _ _ IH Ec).
    reflexivity.
  - destruct items as [| kx xs]; [intros H; now injection H as <- |].
    match goal with
    | |- match json.encode_items ?f ?sp true (kx :: xs) with _ => _ end = _
         -> _ =>
        assert (H : forall first l chunks,
                   Forall (fun kv => forall level s,
                             json.iterencode (snd kv) level = Return s ->
                             is_ascii s = true) l ->
                   json.encode_items f sp first l = Return chunks ->
                   is_ascii chunks = true)
    end.
    { intros first l chunks Hl. revert first chunks.
      induction Hl as [| y ys Hy _ IHys]; intros first chunks;
        cbn [json.encode_items].
      - intros H. now injection H as <-.
      - destruct (json.iterencode (snd y) (S level)) as [cy |] eqn:Ey;
          [| discriminate].
        destruct (json.encode_items _ _ false ys) as [cr |] eqn:Er;
          [| discriminate].
        intros H. apply Return_inj in H. rewrite <- H.
        rewrite !is_ascii_app, encode_basestring_ascii_is_ascii,
          (Hy _ _ Ey), (IHys _ _ Er).
        change (is_ascii [c_colon; c_space]) with true.
        destruct first; [reflexivity |].
        change (is_ascii (c_comma :: ?l)) with (is_ascii l).
        now rewrite newline_indent_ascii. }
    destruct (json.encode_items _ _ true (kx :: xs)) as [chunks |] eqn:Ec;
      [| discriminate].
    intros E. apply Return_inj in E. rewrite <- E.
    rewrite !is_ascii_app, !newline_indent_ascii, (H _ _ _ IH Ec).
    reflexivity.
  - discriminate.
Qed.

(** X5: whatever characters the strings of a result hold, the text that
    [json.dumps] makes of it consists of ASCII characters only. *)
Theorem X5_dumps_ascii (v : pyval) (s : str) :
  json.dumps v = Return s -> is_ascii s = true.
Proof. apply iterencode_ascii. Qed.

Lemma X5_dumps_ascii_witness :
  exists s,
    json.dumps (PList [PStr [233; 128512]%N]) = Return s /\
    is_ascii s = true.
Proof.
  eexists. split; [reflexivity |].
  apply (@X5_dumps_ascii (PList [PStr [233; 128512]%N])).
  reflexivity.
Defined.

(* ================================================================== *)
(** * Further properties: rows as dicts *)
(* ================================================================== *)

Lemma keys_dict_set acc k v :
  map fst (dict_set acc k v)
  = if existsb (str_eqb k) (map fst acc) then map fst acc
    else map fst acc ++ [k].
Proof.
  induction acc as [| [a va] acc IH]; [reflexivity |].
  cbn [dict_set map fst existsb]. rewrite (str_eqb_sym k a).
  destruct (str_eqb a k); [reflexivity |].
  cbn [orb map fst]. rewrite IH.
  now destruct (existsb (str_eqb k) (map fst acc)).
Qed.

Lemma distinct_snoc l k :
  distinct l = true -> existsb (str_eqb k) l = false ->
  distinct (l ++ [k]) = true.
Proof.
  induction l as [| a l IH]; [reflexivity |].
  cbn [distinct existsb List.app]. intros Hd Hk.
  apply andb_true_iff in Hd as [Ha Hd].
  apply orb_false_iff in Hk as [Hka Hk].
  rewrite existsb_app. cbn [existsb]. rewrite (str_eqb_sym a k), Hka.
  apply negb_true_iff in Ha. rewrite Ha. cbn. now apply IH.
Qed.

Lemma distinct_dict_set acc k v :
  distinct (map fst acc) = true ->
  distinct (map fst (dict_set acc k v)) = true.
Proof.
  intros Hd. rewrite keys_dict_set.
  destruct (existsb (str_eqb k) (map fst acc)) eqn:E; [exact Hd |].
  now apply distinct_snoc.
Qed.

Lemma distinct_dict pairs : distinct (map fst (dict pairs)) = true.
Proof.
  unfold dict.
  assert (H : forall acc, distinct (map fst acc) = true ->
              distinct (map fst (fold_left
                                   (fun d kv => dict_set d (fst kv) (snd kv))
                                   pairs acc)) = true).
  { induction pairs as [| p pairs IH]; intros acc Hacc; [exact Hacc |].
    cbn [fold_left]. apply IH. now apply distinct_dict_set. }
  now apply H.
Qed.

(** X6: every record that [execute_query] returns has pairwise different
    keys, whatever column names the rows of the backend carry. *)
Theorem X6_records_have_distinct_keys (db : BigQueryDatabase.t) (query : str)
  (params : option (list ScalarQueryParameter)) (st : State)
  (records : list (list (str * pyval))) :
  fst (BigQueryDatabase.execute_query db query params st) = Return records ->
  forallb (fun record => distinct (map fst record)) records = true.
Proof.
  rewrite execute_query_run. cbn [fst].
  destruct (on_query _ _ _ _ _) as [job | e]; [| discriminate].
  destruct (result job) as [rows | e]; [| discriminate].
  intros H. injection H as <-.
  induction rows as [| row rows IH]; [reflexivity |].
  cbn [map forallb]. now rewrite distinct_dict, IH.
Qed.

Lemma X6_records_have_distinct_keys_witness :
  forallb (fun record => distinct (map fst record))
    [[(lit "x", PInt 2)]] = true.
Proof.
  apply (@X6_records_have_distinct_keys stub_db (lit "SELECT 1 AS x, 2 AS x")
           None (stub_state [[(lit "x", PInt 1); (lit "x", PInt 2)]])).
  reflexivity.
Defined.

Lemma dict_get_dict_set acc k v k' :
  dict_get (dict_set acc k v) k'
  = if str_eqb k k' then Some v else dict_get acc k'.
Proof.
  induction acc as [| [a va] acc IH]; [reflexivity |].
  cbn [dict_set]. destruct (str_eqb a k) eqn:Eak.
  - apply str_eqb_eq in Eak. subst a. cbn [dict_get].
    now destruct (str_eqb k k').
  - cbn [dict_get]. rewrite IH.
    destruct (str_eqb a k') eqn:Eak'; [| reflexivity].
    apply str_eqb_eq in Eak'. subst k'.
    rewrite str_eqb_sym in Eak. now rewrite Eak.
Qed.

Lemma dict_get_app l1 l2 k :
  dict_get (l1 ++ l2) k
  = match dict_get l1 k with
    | Some v => Some v
    | None => dict_get l2 k
    end.
Proof.
  induction l1 as [| [a va] l1 IH]; [reflexivity |].
  cbn [List.app dict_get]. now destruct (str_eqb a k).
Qed.

(** X7: when a row gives a column name more than once, the record made
    of it holds, under that name, the value given last. *)
Theorem X7_last_column_wins (row : list (str * pyval)) (k : str) :
  dict_get (dict row) k = dict_get (List.rev row) k.
Proof.
  unfold dict.
  assert (H : forall acc,
              dict_get (fold_left (fun d kv => dict_set d (fst kv) (snd kv))
                          row acc) k
              = match dict_get (List.rev row) k with
                | Some v => Some v
                | None => dict_get acc k
                end).
  { induction row as [| [a va] row IH]; intros acc; [reflexivity |].
    cbn [fold_left fst snd List.rev]. rewrite IH, dict_get_app, dict_get_dict_set.
    cbn [dict_get].
    destruct (dict_get (List.rev row) k); [reflexivity |].
    now destruct (str_eqb a k). }
  rewrite H. now destruct (dict_get (List.rev row) k).
Qed.

(* ================================================================== *)
(** * Further properties: [list_tables] *)
(* ================================================================== *)

Lemma tables_of_run self tables_in datasets :
  forall tables st,
    lists_tables (bigquery st) (client self) tables_in datasets ->
    BigQueryDatabase.tables_of self datasets tables st
    = (Return (tables ++ qualified_names tables_in datasets),
       appended st (map (Client_list_tables (client self)) datasets)).
Proof.
  induction datasets as [| d datasets IH]; intros tables st Hbq.
  - cbn. now rewrite List.app_nil_r, appended_nil.
  - cbn [BigQueryDatabase.tables_of]. unfold bind, call.
    rewrite (Hbq (calls st) d) by now left.
    rewrite IH.
    + cbn [qualified_names flat_map map]. rewrite <- List.app_assoc.
      f_equal. apply (appended_appended st [_] _).
    + intros log d' Hd'. apply Hbq. now right.
Qed.

(** X8: with a dataset filter, [list_tables] asks the backend for the
    tables of each dataset of the filter, in order, and for nothing
    else (the datasets are not listed); it returns every table as
    [dataset.table], dataset by dataset. *)
Theorem X8_list_tables_filtered (db : BigQueryDatabase.t) (st : State)
  (tables_in : str -> list str) :
  datasets_filter db <> [] ->
  lists_tables (bigquery st) (client db) tables_in (datasets_filter db) ->
  BigQueryDatabase.list_tables db st
  = (Return (qualified_names tables_in (datasets_filter db)),
     appended st
       (map (Client_list_tables (client db)) (datasets_filter db))).
Proof.
  intros Hne Hbq. unfold BigQueryDatabase.list_tables, bind.
  destruct (datasets_filter db) as [| d ds] eqn:E; [congruence |].
  unfold ret. now rewrite (@tables_of_run db tables_in (d :: ds) [] st Hbq).
Qed.

Lemma X8_list_tables_filtered_witness :
  BigQueryDatabase.list_tables sales_db (stub_state [])
  = (Return (qualified_names (fun _ => [lit "orders"])
               (datasets_filter sales_db)),
     appended (stub_state [])
       (map (Client_list_tables (client sales_db))
            (datasets_filter sales_db))).
Proof.
  apply (@X8_list_tables_filtered sales_db (stub_state [])
           (fun _ => [lit "orders"])).
  - discriminate.
  - intros log d _. reflexivity.
Defined.

(** X9: without a dataset filter, [list_tables] first lists the datasets
    and then proceeds with them as above. *)
Theorem X9_list_tables_unfiltered (db : BigQueryDatabase.t) (st : State)
  (datasets : list str) (tables_in : str -> list str) :
  datasets_filter db = [] ->
  on_list_datasets (bigquery st) (calls st) (client db) = Return datasets ->
  lists_tables (bigquery st) (client db) tables_in datasets ->
  BigQueryDatabase.list_tables db st
  = (Return (qualified_names tables_in datasets),
     appended st
       (Client_list_datasets (client db)
          :: map (Client_list_tables (client db)) datasets)).
Proof.
  intros Hf Hds Hbq. unfold BigQueryDatabase.list_tables, bind, call.
  rewrite Hf, Hds.
  change (mk_State (_db st) (environ st) (bigquery st)
            (calls st ++ [Client_list_datasets (client db)]))
    with (appended st [Client_list_datasets (client db)]).
  rewrite (@tables_of_run db tables_in datasets []
             (appended st [Client_list_datasets (client db)]) Hbq).
  cbn [List.app]. f_equal.
  apply (appended_appended st [_] _).
Qed.

Lemma X9_list_tables_unfiltered_witness :
  BigQueryDatabase.list_tables stub_db (stub_state [])
  = (Return (qualified_names (fun _ => [lit "orders"]) [lit "sales"]),
     appended (stub_state [])
       (Client_list_datasets (client stub_db)
          :: map (Client_list_tables (client stub_db)) [lit "sales"])).
Proof.
  apply (@X9_list_tables_unfiltered stub_db (stub_state []) [lit "sales"]
           (fun _ => [lit "orders"])).
  - reflexivity.
  - reflexivity.
  - intros log d _. reflexivity.
Defined.

(** X10: when the backend fails on one dataset of the filter,
    [list_tables] raises that error: the tables found so far are not
    returned, and the datasets after the failing one are not asked
    for. *)
Theorem X10_list_tables_stops_at_failure (db : BigQueryDatabase.t)
  (st : State) (tables_in : str -> list str) (before after : list str)
  (failing : str) (e : exn) :
  datasets_filter db = before ++ failing :: after ->
  lists_tables (bigquery st) (client db) tables_in before ->
  (forall log, on_list_tables (bigquery st) log (client db) failing = Raise e) ->
  BigQueryDatabase.list_tables db st
  = (Raise e,
     appended st
       (map (Client_list_tables (client db)) (before ++ [failing]))).
Proof.
  intros Hf Hbq He. unfold BigQueryDatabase.list_tables, bind.
  assert (H : forall tables,
              BigQueryDatabase.tables_of db (before ++ failing :: after)
                tables st
              = (Raise e,
                 appended st (map (Client_list_tables (client db))
                                (before ++ [failing])))).
  { clear Hf. revert st Hbq He. induction before as [| d before IH];
      intros st Hbq He tables.
    - cbn [List.app BigQueryDatabase.tables_of map]. unfold bind, call.
      now rewrite He.
    - cbn [List.app BigQueryDatabase.tables_of map]. unfold bind, call.
      rewrite (Hbq (calls st) d) by now left.
      rewrite IH.
      + f_equal. apply (appended_appended st [_] _).
      + intros log d' Hd'. apply Hbq. now right.
      + exact He. }
  rewrite Hf.
  destruct (before ++ failing :: after) eqn:E;
    [now destruct before |].
  unfold ret. apply H.
Qed.

Lemma X10_list_tables_stops_at_failure_witness :
  BigQueryDatabase.list_tables sales_db
    (mk_State (Some sales_db) []
       (failing_backend (mk_exn (OtherException (lit "NotFound"))
                          (lit "404 Not found")))
       [])
  = (Raise (mk_exn (OtherException (lit "NotFound")) (lit "404 Not found")),
     appended
       (mk_State (Some sales_db) []
          (failing_backend (mk_exn (OtherException (lit "NotFound"))
                             (lit "404 Not found")))
          [])
       (map (Client_list_tables (client sales_db)) ([] ++ [lit "sales"]))).
Proof.
  apply (@X10_list_tables_stops_at_failure sales_db _ (fun _ => [])
           [] [lit "hr"] (lit "sales")).
  - reflexivity.
  - intros log d [].
  - reflexivity.
Defined.

Lemma in_qualified_names tables_in datasets name :
  In name (qualified_names tables_in datasets) ->
  exists d t,
    In d datasets /\ In t (tables_in d) /\ name = d ++ [c_dot] ++ t.
Proof.
  unfold qualified_names. intros H.
  apply in_flat_map in H as (d & Hd & H).
  apply in_map_iff in H as (t & <- & Ht).
  now exists d, t.
Qed.

(** X11: the names that [list_tables] returns are names that
    [describe_table] accepts, as long as no dataset or table identifier
    holds a dot.  The datasets are those of the filter or, without a
    filter, those that [client.list_datasets()] answers.  Every name
    returned is [d.t] for one of these datasets [d] and one of its
    tables [t], and on it [describe_table] runs the query on [d] for the
    table [t]. *)
Theorem X11_listed_names_describe (db : BigQueryDatabase.t) (st st' : State)
  (datasets : list str) (tables_in : str -> list str) (names : list str) :
  match datasets_filter db with
  | [] =>
      on_list_datasets (bigquery st) (calls st) (client db) = Return datasets
  | _ :: _ => datasets = datasets_filter db
  end ->
  lists_tables (bigquery st) (client db) tables_in datasets ->
  (forall d, In d datasets -> count d c_dot = 0) ->
  (forall d t, In d datasets -> In t (tables_in d) -> count t c_dot = 0) ->
  BigQueryDatabase.list_tables db st = (Return names, st') ->
  forall name st2,
    In name names ->
    exists d t,
      In d datasets /\ In t (tables_in d) /\
      name = d ++ [c_dot] ++ t /\
      BigQueryDatabase.describe_table db name st2
      = BigQueryDatabase.execute_query db (BigQueryDatabase.ddl_query d)
          (Some [table_name_parameter t]) st2.
Proof.
  intros Hds Hbq Hd Ht Hrun name st2 Hin.
  assert (Hnames : names = qualified_names tables_in datasets).
  { unfold BigQueryDatabase.list_tables, bind in Hrun.
    destruct (datasets_filter db) as [| d0 ds] eqn:E.
    - unfold call in Hrun. rewrite Hds in Hrun.
      rewrite (@tables_of_run db tables_in datasets []
                 (mk_State (_db st) (environ st) (bigquery st)
                    (calls st ++ [Client_list_datasets (client db)])) Hbq)
        in Hrun.
      now injection Hrun as <- _.
    - unfold ret in Hrun. subst datasets.
      rewrite (@tables_of_run db tables_in (d0 :: ds) [] st Hbq) in Hrun.
      now injection Hrun as <- _. }
  subst names.
  apply in_qualified_names in Hin as (d & t & Hind & Hint & ->).
  exists d, t. repeat split; try assumption.
  unfold BigQueryDatabase.describe_table.
  now rewrite (split_qualified d t (Hd d Hind) (Ht d t Hind Hint)).
Qed.

Lemma X11_listed_names_describe_witness :
  exists d t,
    In d [lit "sales"] /\ In t [lit "orders"] /\
    lit "sales.orders" = d ++ [c_dot] ++ t /\
    BigQueryDatabase.describe_table stub_db (lit "sales.orders") boot_state
    = BigQueryDatabase.execute_query stub_db
        (BigQueryDatabase.ddl_query d)
        (Some [table_name_parameter t]) boot_state.
Proof.
  apply (@X11_listed_names_describe stub_db (stub_state [])
           (appended (stub_state [])
              [Client_list_datasets (client stub_db);
               Client_list_tables (client stub_db) (lit "sales")])
           [lit "sales"]
           (fun _ => [lit "orders"])
           [lit "sales.orders"]).
  - reflexivity.
  - intros log d _. reflexivity.
  - intros d [<- | []]; reflexivity.
  - intros d t _ [<- | []]. reflexivity.
  - reflexivity.
  - left. reflexivity.
Defined.

(* ================================================================== *)
(** * Further properties: initialisation *)
(* ================================================================== *)

(** X12: [__init__] checks the project first and the location second,
    before anything else: without them it raises [ValueError] and makes
    no call on the client library, whatever the other arguments. *)
Theorem X12_init_requires_project_and_location
  (project location key_file : option str) (datasets : list str)
  (st : State) :
  truthy project && truthy location = false ->
  BigQueryDatabase.__init__ project location key_file datasets st
  = (Raise (mk_exn ValueError
              (if truthy project then lit "Location is required"
               else lit "Project is required")),
     st).
Proof.
  unfold BigQueryDatabase.__init__.
  destruct (truthy project); [| reflexivity].
  destruct (truthy location); [discriminate | reflexivity].
Qed.

Lemma X12_init_requires_project_and_location_witness :
  BigQueryDatabase.__init__ (Some (lit "proj")) (Some []) None [] boot_state
  = (Raise (mk_exn ValueError
              (if truthy (Some (lit "proj")) then lit "Location is required"
               else lit "Project is required")),
     boot_state).
Proof.
  apply (@X12_init_requires_project_and_location (Some (lit "proj"))
           (Some []) None [] boot_state).
  reflexivity.
Defined.

(** X13: when the key file cannot be loaded, [__init__] raises
    [ValueError] with the message of the loader after [Invalid key file: ],
    and no client is constructed. *)
Theorem X13_init_invalid_key_file
  (project location key_file : option str) (datasets : list str)
  (st : State) (e : exn) :
  truthy project = true -> truthy location = true ->
  truthy key_file = true ->
  on_from_service_account_file (bigquery st) (calls st) (the key_file)
    [BigQueryDatabase.cloud_platform_scope] = Raise e ->
  isinstance_Exception e = true ->
  BigQueryDatabase.__init__ project location key_file datasets st
  = (Raise (mk_exn ValueError (lit "Invalid key file: " ++ exn_str e)),
     appended st
       [Credentials_from_service_account_file (the key_file)
          [BigQueryDatabase.cloud_platform_scope]]).
Proof.
  intros Hp Hl Hk Hc He. unfold BigQueryDatabase.__init__.
  rewrite Hp, Hl, Hk. cbn [negb].
  unfold bind, try_except_Exception, call, raise. now rewrite Hc, He.
Qed.

Lemma X13_init_invalid_key_file_witness :
  BigQueryDatabase.__init__ (Some (lit "proj")) (Some (lit "US"))
    (Some (lit "/missing.json")) []
    (mk_State None []
       (failing_backend (mk_exn (OtherException (lit "FileNotFoundError"))
                          (lit "No such file")))
       [])
  = (Raise (mk_exn ValueError (lit "Invalid key file: " ++ lit "No such file")),
     appended
       (mk_State None []
          (failing_backend (mk_exn (OtherException (lit "FileNotFoundError"))
                             (lit "No such file")))
          [])
       [Credentials_from_service_account_file (the (Some (lit "/missing.json")))
          [BigQueryDatabase.cloud_platform_scope]]).
Proof.
  apply (@X13_init_invalid_key_file (Some (lit "proj")) (Some (lit "US"))
           (Some (lit "/missing.json")) []
           (mk_State None []
              (failing_backend
                 (mk_exn (OtherException (lit "FileNotFoundError"))
                    (lit "No such file")))
              [])
           (mk_exn (OtherException (lit "FileNotFoundError"))
              (lit "No such file")));
    reflexivity.
Defined.

Lemma init_returns project location key_file datasets st db st' :
  BigQueryDatabase.__init__ project location key_file datasets st
  = (Return db, st') ->
  exists creds,
    db = mk_BigQueryDatabase
           (mk_Client creds (the project) (the location)) datasets /\
    truthy project = true /\ truthy location = true /\
    (if truthy key_file
     then exists c,
         on_from_service_account_file (bigquery st) (calls st) (the key_file)
           [BigQueryDatabase.cloud_platform_scope] = Return c /\
         creds = Some c
     else creds = None) /\
    st' = appended st
            ((if truthy key_file
              then [Credentials_from_service_account_file (the key_file)
                      [BigQueryDatabase.cloud_platform_scope]]
              else [])
               ++ [Client_init creds (the project) (the location)]).
Proof.
  unfold BigQueryDatabase.__init__.
  destruct (truthy project); cbn [negb]; [| discriminate].
  destruct (truthy location); cbn [negb]; [| discriminate].
  unfold bind, try_except_Exception, call, ret, raise.
  destruct (truthy key_file).
  - cbn [fst snd].
    destruct (on_from_service_account_file _ _ _ _) as [c | e];
      cbn [bigquery calls].
    + destruct (on_Client_init _ _ _ _ _); [| discriminate].
      intros H. injection H as <- <-. exists (Some c).
      repeat split; [now exists c |].
      unfold appended. cbn [_db environ bigquery calls List.app].
      now rewrite <- List.app_assoc.
    + destruct (isinstance_Exception e); discriminate.
  - cbn [bigquery calls].
    destruct (on_Client_init _ _ _ _ _); [| discriminate].
    intros H. injection H as <- <-. exists None. now repeat split.
Qed.

(** X14: the object that [__init__] returns holds a client for the
    project and the location it was given, with the credentials loaded
    from the key file, or none when no key file was given, and the
    dataset filter as given; constructing that client is the last call
    made, and the only construction. *)
Theorem X14_init_result (proj loc key_file : option str)
  (datasets : list str) (st st' : State) (db : BigQueryDatabase.t) :
  BigQueryDatabase.__init__ proj loc key_file datasets st
  = (Return db, st') ->
  project (client db) = the proj /\
  location (client db) = the loc /\
  datasets_filter db = datasets /\
  (truthy key_file = false -> credentials (client db) = None) /\
  exists log,
    calls st' = calls st ++ log
                  ++ [Client_init (credentials (client db)) (the proj)
                        (the loc)] /\
    clients_constructed log = 0.
Proof.
  intros H. apply init_returns in H as (creds & -> & _ & _ & Hk & ->).
  cbn [client datasets_filter project location credentials].
  repeat split.
  - intros Hf. now rewrite Hf in Hk.
  - eexists. split; [reflexivity |]. now destruct (truthy key_file).
Qed.

Lemma X14_init_result_witness :
  project (client sales_db) = the (Some (lit "proj")) /\
  location (client sales_db) = the (Some (lit "US")) /\
  datasets_filter sales_db = [lit "sales"; lit "hr"] /\
  (truthy None = false -> credentials (client sales_db) = None) /\
  exists log,
    calls (appended boot_state [Client_init None (lit "proj") (lit "US")])
    = calls boot_state ++ log
        ++ [Client_init (credentials (client sales_db))
              (the (Some (lit "proj"))) (the (Some (lit "US")))] /\
    clients_constructed log = 0.
Proof.
  apply (@X14_init_result (Some (lit "proj")) (Some (lit "US")) None
           [lit "sales"; lit "hr"] boot_state).
  reflexivity.
Defined.

(** [main] is [init_db_from_env] run in an environment where every flag
    given on the command line has replaced the variable of its name. *)
Lemma main_run args st0 :
  exists env,
    main args st0
    = init_db_from_env (mk_State (_db st0) env (bigquery st0) (calls st0)) /\
    lookup env (lit "BQ_PROJECT_ID")
    = (if truthy (args_project args) then Some (the (args_project args))
       else lookup (environ st0) (lit "BQ_PROJECT_ID")) /\
    lookup env (lit "BQ_LOCATION")
    = (if truthy (args_location args) then Some (the (args_location args))
       else lookup (environ st0) (lit "BQ_LOCATION")) /\
    lookup env (lit "BQ_KEY_FILE")
    = (if truthy (args_key_file args) then Some (the (args_key_file args))
       else lookup (environ st0) (lit "BQ_KEY_FILE")) /\
    lookup env (lit "BQ_DATASETS")
    = match args_dataset args with
      | Some ((_ :: _) as dataset) => Some (join [c_comma] dataset)
      | _ => lookup (environ st0) (lit "BQ_DATASETS")
      end.
Proof.
  destruct st0 as [db0 env0 bq0 calls0]. unfold main, bind, when.
  cbn [_db environ bigquery calls].
  destruct (truthy (args_project args)), (truthy (args_location args)),
    (truthy (args_key_file args)), (args_dataset args) as [[| d ds] |];
    eexists; (split; [reflexivity |]); repeat split; reflexivity.
Qed.

Lemma init_db_from_env_run st st1 :
  init_db_from_env st = (Return tt, st1) ->
  exists db st',
    BigQueryDatabase.__init__
      (lookup (environ st) (lit "BQ_PROJECT_ID"))
      (lookup (environ st) (lit "BQ_LOCATION"))
      (lookup (environ st) (lit "BQ_KEY_FILE"))
      (if truthy (lookup (environ st) (lit "BQ_DATASETS"))
       then split (the (lookup (environ st) (lit "BQ_DATASETS"))) c_comma
       else [])
      st
    = (Return db, st') /\
    _db st1 = Some db.
Proof.
  unfold init_db_from_env, bind, os_getenv, set_db.
  destruct (BigQueryDatabase.__init__ _ _ _ _ st) as [[db | e] st'];
    [| discriminate].
  intros H. injection H as <-. now exists db, st'.
Qed.

(** X15: a flag of the command line takes precedence over the
    environment variable of the same setting, and a setting without a
    flag is read from the environment: the client of the handle that
    [main] installs is a client for that project and that location. *)
Theorem X15_flags_override_environment (args : Args) (st0 st1 : State) :
  main args st0 = (Return tt, st1) ->
  exists db,
    _db st1 = Some db /\
    project (client db)
    = (if truthy (args_project args) then the (args_project args)
       else the (lookup (environ st0) (lit "BQ_PROJECT_ID"))) /\
    location (client db)
    = (if truthy (args_location args) then the (args_location args)
       else the (lookup (environ st0) (lit "BQ_LOCATION"))).
Proof.
  destruct (main_run args st0) as (env & -> & Hp & Hl & _ & _).
  intros H. apply init_db_from_env_run in H as (db & st' & Hinit & Hdb).
  cbn [environ] in Hinit.
  apply init_returns in Hinit as (creds & -> & _ & _ & _ & _).
  exists (mk_BigQueryDatabase
            (mk_Client creds (the (lookup env (lit "BQ_PROJECT_ID")))
               (the (lookup env (lit "BQ_LOCATION"))))
            (if truthy (lookup env (lit "BQ_DATASETS"))
             then split (the (lookup env (lit "BQ_DATASETS"))) c_comma
             else [])).
  split; [exact Hdb |]. cbn [client project location].
  rewrite Hp, Hl.
  now destruct (truthy (args_project args)), (truthy (args_location args)).
Qed.

Lemma X15_flags_override_environment_witness :
  exists db,
    _db (snd (main boot_args
                (mk_State None [(lit "BQ_PROJECT_ID", lit "other");
                                (lit "BQ_LOCATION", lit "EU")]
                   (stub_backend []) [])))
    = Some db /\
    project (client db)
    = (if truthy (args_project boot_args) then the (args_project boot_args)
       else the (lookup [(lit "BQ_PROJECT_ID", lit "other");
                         (lit "BQ_LOCATION", lit "EU")]
                   (lit "BQ_PROJECT_ID"))) /\
    location (client db)
    = (if truthy (args_location boot_args) then the (args_location boot_args)
       else the (lookup [(lit "BQ_PROJECT_ID", lit "other");
                         (lit "BQ_LOCATION", lit "EU")]
                   (lit "BQ_LOCATION"))).
Proof.
  apply (@X15_flags_override_environment boot_args
           (mk_State None [(lit "BQ_PROJECT_ID", lit "other");
                           (lit "BQ_LOCATION", lit "EU")]
              (stub_backend []) [])).
  reflexivity.
Defined.

Lemma split_join sep parts :
  parts <> [] ->
  Forall (fun p => count p sep = 0) parts ->
  split (join [sep] parts) sep = parts.
Proof.
  intros Hne Hall. induction Hall as [| p ps Hp Hps IH]; [congruence |].
  destruct ps as [| q ps].
  - cbn [join]. now apply split_no_sep.
  - change (join [sep] (p :: q :: ps)) with (p ++ sep :: join [sep] (q :: ps)).
    rewrite split_at_sep by exact Hp. f_equal. apply IH. discriminate.
Qed.

(** X16: the [--dataset] flags reach the handle unchanged: [main] joins
    them with commas, [init_db_from_env] splits at the commas, and the
    dataset filter is the list of the flags, provided no dataset name
    holds a comma and the joined text is not empty. *)
Theorem X16_dataset_flags_round_trip (args : Args) (st0 st1 : State)
  (datasets : list str) :
  main args st0 = (Return tt, st1) ->
  args_dataset args = Some datasets ->
  Forall (fun d => count d c_comma = 0) datasets ->
  join [c_comma] datasets <> [] ->
  exists db, _db st1 = Some db /\ datasets_filter db = datasets.
Proof.
  intros Hmain Hds Hall Hne.
  destruct (main_run args st0) as (env & E & _ & _ & _ & Hd).
  rewrite E in Hmain. clear E.
  apply init_db_from_env_run in Hmain as (db & st' & Hinit & Hdb).
  cbn [environ] in Hinit.
  apply init_returns in Hinit as (creds & -> & _ & _ & _ & _).
  eexists. split; [exact Hdb |]. cbn [datasets_filter].
  rewrite Hds in Hd.
  destruct datasets as [| d ds]; [now elim Hne |].
  rewrite Hd.
  destruct (join [c_comma] (d :: ds)) as [| c j] eqn:Ej; [now elim Hne |].
  cbn [truthy the]. rewrite <- Ej. apply split_join; [discriminate | exact Hall].
Qed.

Lemma X16_dataset_flags_round_trip_witness :
  exists db,
    _db (snd (main sales_args boot_state)) = Some db /\
    datasets_filter db = [lit "sales"; lit "hr"].
Proof.
  apply (@X16_dataset_flags_round_trip sales_args boot_state).
  - reflexivity.
  - reflexivity.
  - repeat constructor.
  - discriminate.
Defined.

Lemma init_keeps_db project location key_file datasets st :
  _db (snd (BigQueryDatabase.__init__ project location key_file datasets st))
  = _db st.
Proof.
  unfold BigQueryDatabase.__init__.
  destruct (truthy project); cbn [negb]; [| reflexivity].
  destruct (truthy location); cbn [negb]; [| reflexivity].
  unfold bind, try_except_Exception, call, ret, raise.
  destruct (truthy key_file); cbn [fst snd].
  - destruct (on_from_service_account_file _ _ _ _) as [c | e];
      cbn [bigquery calls].
    + now destruct (on_Client_init _ _ _ _ _).
    + now destruct (isinstance_Exception e).
  - cbn [bigquery calls]. now destruct (on_Client_init _ _ _ _ _).
Qed.

(** X17: when [init_db_from_env] raises (the project or the location
    is missing, the key file is refused, the client cannot be
    constructed), the global [_db] is what it was before: the
    assignment is only reached once [BigQueryDatabase(...)] has
    returned. *)
Theorem X17_failed_init_keeps_db (st0 st1 : State) (e : exn) :
  init_db_from_env st0 = (Raise e, st1) -> _db st1 = _db st0.
Proof.
  unfold init_db_from_env, bind, os_getenv, set_db.
  match goal with
  | |- context [BigQueryDatabase.__init__ ?p ?l ?k ?d ?s] =>
      pose proof (init_keeps_db p l k d s) as Hk;
      destruct (BigQueryDatabase.__init__ p l k d s) as [[db | e'] st']
  end; [discriminate |].
  intros H. injection H as _ <-. exact Hk.
Qed.

Lemma X17_failed_init_keeps_db_witness :
  _db (snd (init_db_from_env
              (mk_State (Some stub_db) [(lit "BQ_PROJECT_ID", lit "proj")]
                 (stub_backend []) [])))
  = _db (mk_State (Some stub_db) [(lit "BQ_PROJECT_ID", lit "proj")]
           (stub_backend []) []).
Proof.
  apply (@X17_failed_init_keeps_db
           (mk_State (Some stub_db) [(lit "BQ_PROJECT_ID", lit "proj")]
              (stub_backend []) [])
           _ (mk_exn ValueError (lit "Location is required"))).
  reflexivity.
Defined.

(* ================================================================== *)
(** * Further properties: the command line client *)
(* ================================================================== *)

(** X18: whatever the command line, the request the client sends, if it
    sends one, goes to [SERVER_URL] followed by one of [/list-tables],
    [/describe-table], [/execute-query] and [/execute-query-sse], and
    none of these paths is served by a route that [server.py] adds. *)
Theorem X18_client_paths_not_served (SSEClient : bool)
  (args : mcp_bq_client.Args) (request : HttpRequest) :
  mcp_bq_client.main SSEClient args = Some request ->
  exists path,
    url request = mcp_bq_client.args_server_url args ++ path /\
    In path [lit "/list-tables"; lit "/describe-table";
             lit "/execute-query"; lit "/execute-query-sse"] /\
    served path = false.
Proof.
  unfold mcp_bq_client.main.
  destruct (mcp_bq_client.args_list_tables args).
  { intros H. injection H as <-. eexists. split; [reflexivity |].
    split; [cbn; tauto | reflexivity]. }
  destruct (truthy (mcp_bq_client.args_describe_table args)).
  { intros H. injection H as <-. eexists. split; [reflexivity |].
    split; [cbn; tauto | reflexivity]. }
  destruct (truthy (mcp_bq_client.args_execute_query args)).
  { intros H. injection H as <-. eexists. split; [reflexivity |].
    split; [cbn; tauto | reflexivity]. }
  destruct (truthy (mcp_bq_client.args_execute_query_sse args));
    [| discriminate].
  unfold mcp_bq_client.execute_query_sse.
  destruct SSEClient; [| discriminate].
  intros H. injection H as <-. eexists. split; [reflexivity |].
  split; [cbn; tauto | reflexivity].
Qed.

Lemma X18_client_paths_not_served_witness :
  exists path,
    url (mcp_bq_client.describe_table (lit "http://localhost:8080")
           (lit "sales.orders"))
    = lit "http://localhost:8080" ++ path /\
    In path [lit "/list-tables"; lit "/describe-table";
             lit "/execute-query"; lit "/execute-query-sse"] /\
    served path = false.
Proof.
  apply (@X18_client_paths_not_served true
           (mcp_bq_client.mk_Args false (Some (lit "sales.orders")) None None
              (lit "http://localhost:8080"))).
  reflexivity.
Defined.

(* ================================================================== *)
(** * Further properties: the strings the tools return *)
(* ================================================================== *)

(** X19: the error string of a tool is not a JSON text: [json.loads]
    refuses it, whatever the message of the exception. *)
Theorem X19_error_string_is_not_json (e : exn) :
  json.loads (lit "Error: " ++ exn_str e) = None.
Proof. reflexivity. Qed.

(** X20: the payload of the [list_tables] tool reads back, with
    [json.loads], as the list of the names that the method returned, as
    long as the names hold no surrogate code points. *)
Theorem X20_list_tables_payload_round_trip (st st' : State)
  (db : BigQueryDatabase.t) (names : list str) :
  _db st = Some db ->
  BigQueryDatabase.list_tables db st = (Return names, st') ->
  forallb valid_str names = true ->
  exists payload,
    list_tables st = (Return payload, st') /\
    json.loads payload = Some (PList (map PStr names)).
Proof.
  intros Hdb Hrun Hv.
  assert (Hj : is_json (PList (map PStr names)) = true).
  { cbn [is_json]. clear Hrun. induction names as [| n names IH]; [reflexivity |].
    cbn [forallb map is_json] in *. apply andb_true_iff in Hv as [Hn Hv].
    now rewrite Hn, IH. }
  destruct (loads_dumps _ Hj) as (payload & Ed & El).
  exists payload. split; [| exact El].
  unfold list_tables, bind, get_db. rewrite Hdb.
  unfold try_except_Exception, bind. rewrite Hrun.
  unfold json_dumps, lift. now rewrite Ed.
Qed.

Lemma X20_list_tables_payload_round_trip_witness :
  exists payload,
    list_tables (stub_state [])
    = (Return payload,
       appended (stub_state [])
         [Client_list_datasets (client stub_db);
          Client_list_tables (client stub_db) (lit "sales")]) /\
    json.loads payload = Some (PList (map PStr [lit "sales.orders"])).
Proof.
  apply (@X20_list_tables_payload_round_trip (stub_state []) _ stub_db);
    reflexivity.
Defined.

(** X21: with the handle initialised, a call of the [execute_query]
    tool makes exactly one call on the client library, the query with
    the text it was given, whether the backend answers or fails and
    whether the rows can be serialised or not. *)
Theorem X21_execute_query_tool_one_call (st : State)
  (db : BigQueryDatabase.t) (query : str) :
  _db st = Some db ->
  snd (execute_query query st)
  = appended st [Client_query (client db) query None].
Proof.
  intros Hdb. unfold execute_query, bind, get_db. rewrite Hdb.
  unfold try_except_Exception, bind. rewrite execute_query_run.
  cbn [job_parameters].
  destruct (on_query _ _ _ _ _) as [job | e].
  - destruct (result job) as [rows | e].
    + unfold json_dumps, lift.
      destruct (json.dumps _) as [s | e]; [reflexivity |].
      now destruct (isinstance_Exception e).
    + now destruct (isinstance_Exception e).
  - now destruct (isinstance_Exception e).
Qed.

Lemma X21_execute_query_tool_one_call_witness :
  snd (execute_query (lit "SELECT 1")
         (mk_State (Some stub_db) []
            (failing_backend (mk_exn (OtherException (lit "BadRequest"))
                                (lit "400 Syntax error")))
            []))
  = appended
      (mk_State (Some stub_db) []
         (failing_backend (mk_exn (OtherException (lit "BadRequest"))
                             (lit "400 Syntax error")))
         [])
      [Client_query (client stub_db) (lit "SELECT 1") None].
Proof.
  apply (@X21_execute_query_tool_one_call _ stub_db (lit "SELECT 1")).
  reflexivity.
Defined.
